(** * create_gw_label: the input classifier and the adaptive label layout

    A shallow embedding of [generate_pdf_label.py] and of the submit handler
    of [app.py].

    Conventions of the embedding.
    - A Python [str] is a [string]; the model covers 7-bit ASCII text, where
      [str.isalpha], [str.isdigit] and [str.isalnum] are the predicates below.
    - A Python [int] is a [Z].
    - Console output ([print]) is not modelled.
    - External libraries (requests, qrcode, reportlab, the file system) are
      parameters of the sections that use them.

    The renderer and its callers are embedded twice.
    - The first embedding reads a Python [float] as the exact rational it
      denotes ([Q]) and lets the QR encoder and the JSON decoder always
      succeed.  It carries the properties that depend neither on rounding
      nor on those failures: the classifier, the split point, the payload
      of the QR image, the order of the requests, the geometry of the page.
    - The second embedding, [Binary64], computes on binary64 floats with
      their rounding, lets the QR encoder refuse its payload and lets a
      response body decode to any JSON value.  It carries the properties
      that depend on a width comparison, on an exception or on what the
      fetch hands back. *)

From Stdlib Require Import ZArith QArith Qround Bool List Ascii String Lia.
From Stdlib Require Import DecimalString Lqa.
From Stdlib Require Uint63 PrimFloat SpecFloat FloatOps.
Import ListNotations.

Open Scope string_scope.
Open Scope Z_scope.

(** ** Python string primitives *)

Module Py.

(** [len(s)] *)
Definition len (s : string) : Z := Z.of_nat (String.length s).

Fixpoint take (n : nat) (s : string) : string :=
  match n, s with
  | S n', String c s' => String c (take n' s')
  | _, _ => EmptyString
  end.

Fixpoint drop (n : nat) (s : string) : string :=
  match n, s with
  | S n', String _ s' => drop n' s'
  | _, _ => s
  end.

(** A slice bound [k] of a string of length [n]: a negative bound counts
    from the end, and the result is clamped to [0 .. n]. *)
Definition clamp (n k : Z) : Z :=
  if k <? 0 then Z.max 0 (n + k) else Z.min k n.

(** [s[:k]] *)
Definition slice_to (s : string) (k : Z) : string :=
  take (Z.to_nat (clamp (len s) k)) s.

(** [s[k:]] *)
Definition slice_from (s : string) (k : Z) : string :=
  drop (Z.to_nat (clamp (len s) k)) s.

(** [s[i]] at an index counted from the start (the code uses no negative
    index); [None] stands for [IndexError]. *)
Definition index (s : string) (i : Z) : option ascii :=
  if (0 <=? i) && (i <? len s) then String.get (Z.to_nat i) s else None.

(** [range(a, b)] *)
Definition range (a b : Z) : list Z :=
  map (fun k => a + Z.of_nat k) (seq 0 (Z.to_nat (b - a))).

(** [any(p(c) for c in s)] *)
Fixpoint any (p : ascii -> bool) (s : string) : bool :=
  match s with
  | EmptyString => false
  | String c s' => p c || any p s'
  end.

(** [c in s] for a one-character [c] *)
Definition contains (c : ascii) (s : string) : bool := any (Ascii.eqb c) s.

Definition between (lo hi c : ascii) : bool :=
  (nat_of_ascii lo <=? nat_of_ascii c)%nat && (nat_of_ascii c <=? nat_of_ascii hi)%nat.

(** [c.isalpha()], [c.isdigit()], [c.isalnum()] on ASCII *)
Definition isalpha (c : ascii) : bool := between "a" "z" c || between "A" "Z" c.
Definition isdigit (c : ascii) : bool := between "0" "9" c.
Definition isalnum (c : ascii) : bool := isalpha c || isdigit c.

(** Truthiness of an optional string: [None] and the empty string are falsy. *)
Definition truthy (v : option string) : bool :=
  match v with
  | Some s => negb (String.eqb s EmptyString)
  | None => false
  end.

(** [c.isspace()] on ASCII *)
Definition isspace (c : ascii) : bool :=
  between (ascii_of_nat 9) (ascii_of_nat 13) c
  || between (ascii_of_nat 28) (ascii_of_nat 31) c
  || Ascii.eqb c " ".

Fixpoint lstrip (s : string) : string :=
  match s with
  | EmptyString => EmptyString
  | String c s' => if isspace c then lstrip s' else s
  end.

Fixpoint rstrip (s : string) : string :=
  match s with
  | EmptyString => EmptyString
  | String c s' =>
      let r := rstrip s' in
      if String.eqb r EmptyString && isspace c then EmptyString else String c r
  end.

(** [s.strip()] *)
Definition strip (s : string) : string := rstrip (lstrip s).

(** [d.get(key, default)] on a dict with string keys and values *)
Fixpoint dict_get (d : list (string * string)) (key default : string) : string :=
  match d with
  | [] => default
  | (k, v) :: d' => if String.eqb k key then v else dict_get d' key default
  end.

(** [min(a, b)] of two floats *)
Definition min (a b : Q) : Q := if Qle_bool a b then a else b.

(** [int(x)] of a float: truncation toward zero. *)
Definition int (x : Q) : Z := Z.quot (Qnum x) (Z.pos (Qden x)).

End Py.

(** ** The fragment of [re] used by [ip_pattern] *)

Module Re.

Inductive regex : Type :=
| Caret                              (* ^ *)
| Dollar                             (* $ *)
| Lit (c : ascii)                    (* a literal character *)
| Range (lo hi : ascii)              (* [lo-hi] *)
| OneOf (cs : string)                (* [abc] *)
| Cat (r1 r2 : regex)                (* r1r2 *)
| Alt (r1 r2 : regex)                (* r1|r2 *)
| Opt (r : regex)                    (* r? *)
| Rep (n : nat) (r : regex).         (* r{n} *)

Definition newline : string := String (ascii_of_nat 10) EmptyString.

(** [$] without MULTILINE: at the end of the subject, or just before a
    newline that ends it. *)
Definition at_dollar (s : string) : bool := String.eqb s EmptyString || String.eqb s newline.

Section Matcher.
(** The whole subject string; [^] succeeds only where nothing of it has
    been consumed. *)
Variable subject : string.

(** Backtracking matcher in continuation-passing style: [run r s k] tries
    [r] at the remaining input [s], alternatives from left to right and
    [?] greedily, and hands every candidate rest to [k]. *)
Fixpoint run (r : regex) (s : string) (k : string -> bool) {struct r} : bool :=
  match r with
  | Caret => (String.length s =? String.length subject)%nat && k s
  | Dollar => at_dollar s && k s
  | Lit c =>
      match s with
      | String a s' => Ascii.eqb a c && k s'
      | EmptyString => false
      end
  | Range lo hi =>
      match s with
      | String a s' => Py.between lo hi a && k s'
      | EmptyString => false
      end
  | OneOf cs =>
      match s with
      | String a s' => Py.contains a cs && k s'
      | EmptyString => false
      end
  | Cat r1 r2 => run r1 s (fun s' => run r2 s' k)
  | Alt r1 r2 => run r1 s k || run r2 s k
  | Opt r1 => run r1 s k || k s
  | Rep n r1 =>
      (fix rep (n : nat) (s : string) {struct n} : bool :=
         match n with
         | O => k s
         | S n' => run r1 s (rep n')
         end) n s
  end.
End Matcher.

(** [re.match(pattern, s) is not None] *)
Definition is_match (pattern : regex) (s : string) : bool :=
  run s pattern s (fun _ => true).

(** [musthave c r]: a sufficient syntactic condition for every string
    consumed by [r] to contain the character [c]. *)
Fixpoint musthave (c : ascii) (r : regex) : bool :=
  match r with
  | Lit a => Ascii.eqb c a
  | Cat r1 r2 => musthave c r1 || musthave c r2
  | Alt r1 r2 => musthave c r1 && musthave c r2
  | Rep n r1 => negb (n =? 0)%nat && musthave c r1
  | _ => false
  end.

End Re.

(** ** Input classifier *)

Import Re.

(** (?:25[0-5]|2[0-4][0-9]|[01]?[0-9][0-9]?) *)
Definition octet : regex :=
  Alt (Cat (Lit "2") (Cat (Lit "5") (Range "0" "5")))
 (Alt (Cat (Lit "2") (Cat (Range "0" "4") (Range "0" "9")))
      (Cat (Opt (OneOf "01")) (Cat (Range "0" "9") (Opt (Range "0" "9"))))).

(** ^(?:octet\.){3}octet$ *)
Definition ip_pattern : regex :=
  Cat Caret (Cat (Rep 3 (Cat octet (Lit "."))) (Cat octet Dollar)).

Definition is_ip_address (input_str : string) : bool :=
  is_match ip_pattern input_str.

Definition is_registration_code (input_str : string) : bool :=
  if Py.len input_str <? 10 then false
  else if Py.contains "." input_str then false
  else
    let has_letter := Py.any Py.isalpha input_str in
    let has_digit := Py.any Py.isdigit input_str in
    has_letter && has_digit.

(** The three branches of the dispatch at the head of [generate_label]. *)
Inductive category : Type := NetworkAddress | OpaqueCode | Unrecognized.

Definition classify (device_input : string) : category :=
  if is_ip_address device_input then NetworkAddress
  else if is_registration_code device_input then OpaqueCode
  else Unrecognized.

(** ** Drawing primitives (reportlab's canvas, qrcode) *)

Inductive exn : Type := ZeroDivisionError.

Inductive color : Type := lightgrey | black.

Inductive ec_level : Type := ERROR_CORRECT_L.

(** The PNG buffer returned by [generate_qr_code], represented by what the
    encoder was given: the symbol parameters and the payload. *)
Record qr_png : Type := {
  qr_version : Z;
  qr_error_correction : ec_level;
  qr_box_size : Z;
  qr_border : Z;
  qr_data : string;
  qr_fill_color : string;
  qr_back_color : string
}.

Inductive image : Type :=
| ImageReader_buffer (b : qr_png)
| ImageReader_file (path : string).

Inductive op : Type :=
| setStrokeColor (c : color)
| setLineWidth (w : Q)
| rect (x y w h : Q)
| drawImage (img : image) (x y width height : Q) (preserveAspectRatio : bool)
| setFont (name : string) (size : Z)
| setFillColor (c : color)
| drawString (x y : Q) (text : string)
| save.

(** A canvas: the target file, the page size and the operations issued so
    far, oldest first. *)
Record canvas : Type := {
  filename : string;
  pagesize : Q * Q;
  ops : list op
}.

(** Canvas-threading computations that may raise. *)
Definition draw (A : Type) : Type := canvas -> exn + (A * canvas).

Definition ret {A : Type} (a : A) : draw A := fun c => inr (a, c).

Definition bind {A B : Type} (m : draw A) (k : A -> draw B) : draw B :=
  fun c =>
    match m c with
    | inl e => inl e
    | inr (a, c') => k a c'
    end.

Definition raise {A : Type} (e : exn) : draw A := fun _ => inl e.

(** The canvas [c] after the operations [os] were issued on it. *)
Definition push (c : canvas) (os : list op) : canvas :=
  {| filename := filename c; pagesize := pagesize c; ops := (ops c ++ os)%list |}.

Definition emit (o : op) : draw unit := fun c => inr (tt, push c [o]).

Notation "m ;; k" := (bind m (fun _ => k)) (at level 61, right associativity).

Definition Canvas (output_path : string) (size : Q * Q) : canvas :=
  {| filename := output_path; pagesize := size; ops := [] |}.

(** The text of every [drawString] among [os], in order. *)
Fixpoint drawn_strings (os : list op) : list string :=
  match os with
  | [] => []
  | drawString _ _ text :: os' => text :: drawn_strings os'
  | _ :: os' => drawn_strings os'
  end.

(** The buffers of every QR image among [os], in order. *)
Fixpoint drawn_qr (os : list op) : list qr_png :=
  match os with
  | [] => []
  | drawImage (ImageReader_buffer b) _ _ _ _ _ :: os' => b :: drawn_qr os'
  | _ :: os' => drawn_qr os'
  end.

(** The encoder is taken to be total: payloads too long for a QR symbol
    are outside the model. *)
Definition generate_qr_code (data : string) (size_inches : Q) : qr_png :=
  {| qr_version := 1%Z;
     qr_error_correction := ERROR_CORRECT_L;
     qr_box_size := 10%Z;
     qr_border := 1%Z;
     qr_data := data;
     qr_fill_color := "black";
     qr_back_color := "white" |}.

(** ** Label renderer *)

Definition inch : Q := 72%Q.

Inductive file_state : Type := Missing | Unreadable | Readable.

Fixpoint glyph_sum (w : ascii -> N) (s : string) : N :=
  match s with
  | EmptyString => 0%N
  | String c s' => (w c + glyph_sum w s')%N
  end.

(** The test of the break search at position [i]: inside the code, and
    next to a character that is not alphanumeric. *)
Definition logical_point (reg_code : string) (i : Z) : bool :=
  (0 <? i) && (i <? Py.len reg_code) &&
  match Py.index reg_code (i - 1), Py.index reg_code i with
  | Some a, Some b => negb (Py.isalnum a) || negb (Py.isalnum b)
  | _, _ => false
  end.

(** The break search of the two-line split: the loop stops at the first
    [i] of [candidates] that passes the test and makes it the split point;
    [mid_point] stays when the loop runs out. *)
Fixpoint find_break (reg_code : string) (candidates : list Z) (mid_point : Z) : Z :=
  match candidates with
  | [] => mid_point
  | i :: rest =>
      if logical_point reg_code i then i
      else find_break reg_code rest mid_point
  end.

(** The split point computed before [line1] and [line2] are cut. *)
Definition split_point (reg_code : string) : Z :=
  let mid_point := Py.len reg_code / 2 in
  find_break reg_code (Py.range (mid_point - 2) (mid_point + 3)) mid_point.

Section Renderer.
Local Open Scope Q_scope.

(** Advance widths of a font's glyphs in 1/1000 em (reportlab's metrics). *)
Variable font_widths : string -> ascii -> N.

(** State of a path on the file system. *)
Variable fs : string -> file_state.

(** [c.stringWidth(text, fontName, fontSize)] *)
Definition stringWidth (text fontName : string) (fontSize : Z) : Q :=
  inject_Z (Z.of_N (glyph_sum (font_widths fontName) text)) * (1 # 1000) * inject_Z fontSize.

(** Horizontal start of the text column. *)
Definition text_start_x_of (height_inches : Q) : Q :=
  let height_pts := height_inches * inch in
  let margin := (1 # 10) * inch in
  let qr_size := Py.min (height_pts - 2 * margin) ((3 # 4) * inch) in
  let qr_x := margin in
  qr_x + qr_size + (1 # 10) * inch.

Definition available_text_width_of (width_inches height_inches : Q) : Q :=
  let width_pts := width_inches * inch in
  let margin := (1 # 10) * inch in
  width_pts - text_start_x_of height_inches - margin - (1 # 20) * inch.

(** The adaptive fitting of the code text (the last block of
    [create_pdf_label] before the save). *)
Definition fit_code_text (reg_code : string)
    (text_start_x code_y available_text_width : Q) : draw unit :=
  let font_size := 7%Z in
  emit (setFont "Helvetica-Bold" font_size) ;;
  let text_width := stringWidth reg_code "Helvetica-Bold" font_size in
  if Qle_bool text_width available_text_width then
    emit (drawString text_start_x code_y reg_code)
  else
    let font_size := 6%Z in
    emit (setFont "Helvetica-Bold" font_size) ;;
    let text_width := stringWidth reg_code "Helvetica-Bold" font_size in
    if Qle_bool text_width available_text_width then
      emit (drawString text_start_x code_y reg_code)
    else
      let mid_point := split_point reg_code in
      let line1 := Py.slice_to reg_code mid_point in
      let line2 := Py.slice_from reg_code mid_point in
      let line1_width := stringWidth line1 "Helvetica-Bold" font_size in
      let line2_width := stringWidth line2 "Helvetica-Bold" font_size in
      if Qle_bool line1_width available_text_width
         && Qle_bool line2_width available_text_width then
        emit (drawString text_start_x (code_y + (1 # 20) * inch) line1) ;;
        emit (drawString text_start_x (code_y - (1 # 20) * inch) line2)
      else if Qeq_bool text_width 0 then raise ZeroDivisionError
      else
        let max_chars :=
          (Py.int (inject_Z (Py.len reg_code) * available_text_width / text_width) - 3)%Z in
        let truncated_code := (Py.slice_to reg_code max_chars ++ "...")%string in
        emit (drawString text_start_x code_y truncated_code).

(** Everything [create_pdf_label] issues on the canvas, up to the save. *)
Definition draw_label (reg_code : string) (width_inches height_inches : Q) : draw unit :=
  let width_pts := width_inches * inch in
  let height_pts := height_inches * inch in
  let margin := (1 # 10) * inch in
  emit (setStrokeColor lightgrey) ;;
  emit (setLineWidth (1 # 2)) ;;
  emit (rect 2 2 (width_pts - 4) (height_pts - 4)) ;;
  let qr_size := Py.min (height_pts - 2 * margin) ((3 # 4) * inch) in
  let qr_x := margin in
  let qr_y := (height_pts - qr_size) / 2 in
  let qr_buffer := generate_qr_code reg_code (8 # 10) in
  let qr_image := ImageReader_buffer qr_buffer in
  emit (drawImage qr_image qr_x qr_y qr_size qr_size false) ;;
  let logo_path := "logo.jpg" in
  let logo_height := (1 # 4) * inch in
  let logo_width := (6 # 10) * inch in
  let logo_x := width_pts - margin - logo_width in
  let logo_y := height_pts - margin - logo_height in
  match fs logo_path with
  | Readable =>
      emit (drawImage (ImageReader_file logo_path) logo_x logo_y logo_width logo_height true)
  | Unreadable | Missing => ret tt
  end ;;
  let text_start_x := qr_x + qr_size + (1 # 10) * inch in
  let label_y := height_pts * (4 # 10) in
  emit (setFont "Helvetica-Bold" 9%Z) ;;
  emit (setFillColor black) ;;
  emit (drawString text_start_x label_y "Registration Code") ;;
  let code_y := height_pts * (1 # 4) in
  let available_text_width := width_pts - text_start_x - margin - (1 # 20) * inch in
  fit_code_text reg_code text_start_x code_y available_text_width ;;
  emit save.

(** The result is the canvas as saved, or the exception raised on the way
    (nothing is written then). *)
Definition create_pdf_label (reg_code : string) (qr_data_or_buffer : option qr_png)
    (output_path : string) (width_inches height_inches : Q) : exn + canvas :=
  let c := Canvas output_path (width_inches * inch, height_inches * inch) in
  match draw_label reg_code width_inches height_inches c with
  | inl e => inl e
  | inr (_, c') => inr c'
  end.

(** Baseline of the code text. *)
Definition code_y_of (height_inches : Q) : Q :=
  let height_pts := height_inches * inch in
  height_pts * (1 # 4).

(** What the fitting step of [create_pdf_label] issues for [reg_code] on a
    page of the given size, or the exception it raises. *)
Definition code_text_ops (reg_code : string) (width_inches height_inches : Q)
    : exn + list op :=
  match fit_code_text reg_code (text_start_x_of height_inches) (code_y_of height_inches)
          (available_text_width_of width_inches height_inches)
          (Canvas EmptyString (width_inches * inch, height_inches * inch)) with
  | inl e => inl e
  | inr (_, c) => inr (ops c)
  end.

End Renderer.

(** ** Device fetch and the top-level operation *)

(** Outcome of [requests.get]: a raised [RequestException], or a response
    with its status, its body and the body decoded as a JSON object of
    string fields ([None] when decoding raises [JSONDecodeError]). *)
Inductive http_result : Type :=
| RequestException
| Response (status_code : Z) (text : string) (json : option (list (string * string))).

Inductive credentials : Type := HTTPBasicAuth (username password : string).

(** What [generate_label] does to the world, in order. *)
Inductive event : Type :=
| Get (url : string) (auth : credentials)
| Render (reg_code output_path : string) (width_inches height_inches : Q)
| Saved (c : canvas).

Section Label.

Variable font_widths : string -> ascii -> N.
Variable fs : string -> file_state.

(** The network as seen by [requests.get]. *)
Variable requests_get : string -> credentials -> http_result.

Definition fetch_device_data (ip username password : string)
    : (option string * option string) * list event :=
  let qr_url := "http://" ++ ip ++ "/api/system/qr" in
  let reg_url := "http://" ++ ip ++ "/api/system/registerCode" in
  let auth := HTTPBasicAuth username password in
  match requests_get qr_url auth with
  | RequestException => ((None, None), [Get qr_url auth])
  | Response qr_status qr_text _ =>
      if negb (qr_status =? 200) then ((None, None), [Get qr_url auth])
      else
        match requests_get reg_url auth with
        | RequestException => ((None, None), [Get qr_url auth; Get reg_url auth])
        | Response reg_status reg_text reg_json =>
            if negb (reg_status =? 200) then
              ((None, None), [Get qr_url auth; Get reg_url auth])
            else
              let reg_code :=
                match reg_json with
                | Some reg_data => Py.dict_get reg_data "registerCode" (Py.strip reg_text)
                | None => Py.strip reg_text
                end in
              ((Some qr_text, Some reg_code), [Get qr_url auth; Get reg_url auth])
        end
  end.

(** The tail of [generate_label]: the guarded call of [create_pdf_label]. *)
Definition generate_pdf (reg_code output_path : string) (width_inches height_inches : Q)
    : option string * list event :=
  match create_pdf_label font_widths fs reg_code None output_path width_inches height_inches with
  | inr c => (Some output_path, [Render reg_code output_path width_inches height_inches; Saved c])
  | inl _ => (None, [Render reg_code output_path width_inches height_inches])
  end.

Definition generate_label (device_input output_path : string) (width_inches height_inches : Q)
    (username password : string) : option string * list event :=
  if is_ip_address device_input then
    let '((qr_svg, reg_code), fetched) := fetch_device_data device_input username password in
    if negb (Py.truthy qr_svg) || negb (Py.truthy reg_code) then (None, fetched)
    else
      match reg_code with
      | Some reg_code =>
          let '(result, rendered) := generate_pdf reg_code output_path width_inches height_inches in
          (result, (fetched ++ rendered)%list)
      | None => (None, fetched)
      end
  else if is_registration_code device_input then
    let reg_code := device_input in
    generate_pdf reg_code output_path width_inches height_inches
  else (None, []).

End Label.

(** [True] when [create_pdf_label] was called somewhere in the trace. *)
Fixpoint render_invoked (evs : list event) : bool :=
  match evs with
  | [] => false
  | Render _ _ _ _ :: _ => true
  | _ :: evs' => render_invoked evs'
  end.

(** The documents written, in order. *)
Fixpoint documents (evs : list event) : list canvas :=
  match evs with
  | [] => []
  | Saved c :: evs' => c :: documents evs'
  | _ :: evs' => documents evs'
  end.

(** ** Helvetica-Bold metrics *)

(** Advance widths of ASCII glyphs of Helvetica-Bold, in 1/1000 em, as in
    the font's AFM file.  Codes that are not listed get width 0 here. *)
Definition helvetica_bold (c : ascii) : N :=
  if Py.isdigit c then 556%N
  else match c with
  | " " => 278 | "!" => 333 | "#" => 556 | "$" => 556 | "%" => 889 | "&" => 722
  | "(" => 333 | ")" => 333 | "*" => 389 | "+" => 584 | "," => 278 | "-" => 333
  | "." => 278 | "/" => 278 | ":" => 333 | ";" => 333 | "<" => 584 | "=" => 584
  | ">" => 584 | "?" => 611 | "@" => 975
  | "A" => 722 | "B" => 722 | "C" => 722 | "D" => 722 | "E" => 667 | "F" => 611
  | "G" => 778 | "H" => 722 | "I" => 278 | "J" => 556 | "K" => 722 | "L" => 611
  | "M" => 833 | "N" => 722 | "O" => 778 | "P" => 667 | "Q" => 778 | "R" => 722
  | "S" => 667 | "T" => 611 | "U" => 722 | "V" => 667 | "W" => 944 | "X" => 667
  | "Y" => 667 | "Z" => 611
  | "[" => 333 | "]" => 333 | "^" => 584 | "_" => 556
  | "a" => 556 | "b" => 611 | "c" => 556 | "d" => 611 | "e" => 556 | "f" => 333
  | "g" => 611 | "h" => 611 | "i" => 278 | "j" => 278 | "k" => 556 | "l" => 278
  | "m" => 889 | "n" => 611 | "o" => 611 | "p" => 611 | "q" => 611 | "r" => 389
  | "s" => 556 | "t" => 333 | "u" => 611 | "v" => 556 | "w" => 778 | "x" => 556
  | "y" => 556 | "z" => 500
  | "{" => 389 | "|" => 280 | "}" => 389 | "~" => 584
  | _ => 0
  end%char%N.

Definition std_fonts (fontName : string) : ascii -> N := helvetica_bold.

(** ** Sample environments and inputs *)

(** No logo on disk. *)
Definition no_logo (path : string) : file_state := Missing.

(** A device that answers every request with status 200 and an empty body. *)
Definition blank_device (url : string) (auth : credentials) : http_result :=
  Response 200 EmptyString None.

(** Thirty wide glyphs followed by thirty narrow ones. *)
Definition wide_then_narrow : string :=
  "WWWWWWWWWWWWWWWWWWWWWWWWWWWWWW111111111111111111111111111111".

(** A code whose middle is a run of separators. *)
Definition dashed : string := "A1------------------".

Definition sample_code : string := "R57NX98AAFC62AF2A".

(** The default label, 2.625 in by 1 in. *)
Definition default_width : Q := 2625 # 1000.
Definition default_height : Q := 1%Q.

(** ** Notions used to state further properties *)

(** The strings a pattern can consume, position tests consuming nothing. *)
Fixpoint lang (r : regex) (w : string) : Prop :=
  match r with
  | Caret | Dollar => w = EmptyString
  | Lit c => w = String c EmptyString
  | Range lo hi => exists a, w = String a EmptyString /\ Py.between lo hi a = true
  | OneOf cs => exists a, w = String a EmptyString /\ Py.contains a cs = true
  | Cat r1 r2 => exists w1 w2, w = w1 ++ w2 /\ lang r1 w1 /\ lang r2 w2
  | Alt r1 r2 => lang r1 w \/ lang r2 w
  | Opt r1 => w = EmptyString \/ lang r1 w
  | Rep n r1 =>
      (fix rep (n : nat) (w : string) {struct n} : Prop :=
         match n with
         | O => w = EmptyString
         | S n' => exists w1 w2, w = w1 ++ w2 /\ lang r1 w1 /\ rep n' w2
         end) n w
  end.

(** Patterns without [^] and [$]. *)
Fixpoint anchor_free (r : regex) : bool :=
  match r with
  | Caret | Dollar => false
  | Lit _ | Range _ _ | OneOf _ => true
  | Cat r1 r2 | Alt r1 r2 => anchor_free r1 && anchor_free r2
  | Opt r1 | Rep _ r1 => anchor_free r1
  end.

(** Value of a decimal digit character. *)
Definition digit_value (c : ascii) : nat := nat_of_ascii c - 48.

(** One to three decimal digits (leading zeros allowed) that denote a
    number of at most 255. *)
Definition is_octet (o : string) : bool :=
  match o with
  | String a EmptyString => Py.isdigit a
  | String a (String b EmptyString) => Py.isdigit a && Py.isdigit b
  | String a (String b (String c EmptyString)) =>
      Py.isdigit a && Py.isdigit b && Py.isdigit c
      && (100 * digit_value a + 10 * digit_value b + digit_value c <=? 255)%nat
  | _ => false
  end.

(** [a.b.c.d] *)
Definition dotted (a b c d : string) : string :=
  a ++ "." ++ b ++ "." ++ c ++ "." ++ d.

(** Decimal numeral of a natural number. *)
Definition decimal (n : nat) : string := NilZero.string_of_uint (Nat.to_uint n).

(** The URLs requested in a trace, in order. *)
Fixpoint requests (evs : list event) : list string :=
  match evs with
  | [] => []
  | Get url _ :: evs' => url :: requests evs'
  | _ :: evs' => requests evs'
  end.

(** Strings made of whitespace only. *)
Fixpoint only_spaces (s : string) : bool :=
  match s with
  | EmptyString => true
  | String c s' => Py.isspace c && only_spaces s'
  end.

(** Size of the font selected last among [os] (0 when none is). *)
Fixpoint last_font_size (os : list op) : Z :=
  match os with
  | [] => 0
  | setFont _ size :: os' =>
      match last_font_size os' with
      | 0 => size
      | later => later
      end
  | _ :: os' => last_font_size os'
  end.

(** A device that answers every request with status 200 and the sample
    code as plain text, padded with whitespace. *)
Definition plain_text_device (url : string) (auth : credentials) : http_result :=
  Response 200 "  R57NX98AAFC62AF2A " None.

(** ** Command line ([main]) and form ([app.py]) *)

(** The namespace returned by the argument parser. *)
Record namespace : Type := {
  arg_input : string;
  arg_username : string;
  arg_password : string;
  arg_output : string;
  arg_width : Q;
  arg_height : Q
}.

(** [os.path.join(a, b)] on POSIX *)
Definition os_path_join (a b : string) : string :=
  if String.prefix "/" b then b
  else if String.eqb a EmptyString then a ++ b
  else match String.get (String.length a - 1) a with
       | Some "/"%char => a ++ b
       | _ => a ++ "/" ++ b
       end.

(** [open(path, "rb").read()] after the trace [evs]: the document saved
    last under [path]; [None] stands for [FileNotFoundError]. *)
Definition read_file (path : string) (evs : list event) : option canvas :=
  find (fun c => String.eqb (filename c) path) (rev (documents evs)).

Inductive input_method : Type := Device_IP_Address | Registration_Code.

(** What the form shows after a submit. *)
Inductive message : Type :=
| error_missing_input
| error_invalid_address
| error_invalid_code
| error_failed
| error_exception
| success_generated
| download_button (pdf_data : canvas) (file_name mime : string)
| info_dimensions (width height : Q).

Section Callers.

Variable font_widths : string -> ascii -> N.
Variable fs : string -> file_state.
Variable requests_get : string -> credentials -> http_result.

(** [main], after argument parsing: the exit status and the trace. *)
Definition main (args : namespace) : Z * list event :=
  let '(result, trace) :=
    generate_label font_widths fs requests_get (arg_input args) (arg_output args)
      (arg_width args) (arg_height args) (arg_username args) (arg_password args) in
  if Py.truthy result then (0, trace) else (1, trace).

(** The credentials the form passes on: the typed ones in address mode,
    the defaults in registration-code mode. *)
Definition form_credentials (method : input_method) (typed_username typed_password : string)
    : string * string :=
  match method with
  | Device_IP_Address => (typed_username, typed_password)
  | Registration_Code => ("admin", "123456")
  end.

Definition method_eqb (a b : input_method) : bool :=
  match a, b with
  | Device_IP_Address, Device_IP_Address => true
  | Registration_Code, Registration_Code => true
  | _, _ => false
  end.

(** The handler of the submit button; [tmpdir] is the temporary directory
    it works in. *)
Definition on_submit (tmpdir : string) (method : input_method)
    (device_input typed_username typed_password : string) (width height : Q)
    (filename : string) : list message * list event :=
  let '(username, password) := form_credentials method typed_username typed_password in
  if String.eqb device_input EmptyString then ([error_missing_input], [])
  else if method_eqb method Device_IP_Address && negb (is_ip_address device_input) then
    ([error_invalid_address], [])
  else if method_eqb method Registration_Code
          && negb (is_registration_code device_input) then
    ([error_invalid_code], [])
  else
    let pdf_filename := filename ++ ".pdf" in
    let pdf_path := os_path_join tmpdir pdf_filename in
    let '(result, trace) :=
      generate_label font_widths fs requests_get device_input pdf_path
        width height username password in
    if Py.truthy result then
      match read_file pdf_path trace with
      | Some pdf_data =>
          ([success_generated;
            download_button pdf_data pdf_filename "application/pdf";
            info_dimensions width height], trace)
      | None => ([success_generated; error_exception], trace)
      end
    else ([error_failed], trace).

End Callers.

(** The command line [generate_pdf_label.py R57NX98AAFC62AF2A], defaults
    filled in. *)
Definition sample_args : namespace :=
  {| arg_input := sample_code;
     arg_username := "admin";
     arg_password := "123456";
     arg_output := "device_label.pdf";
     arg_width := default_width;
     arg_height := default_height |}.

(** * Second embedding: binary64 arithmetic and the collaborators' failures

    The embedding above reads floats as exact rationals and lets the QR
    encoder and the JSON decoder always succeed.  This one follows the
    program on its own numbers and failures.
    - A Python [float] is a binary64 [float], with the rounding, the
      infinities and the NaN of the machine.
    - [c.stringWidth] (reportlab) is a parameter that returns a float.
    - The QR encoder (qrcode) is a parameter that may refuse its payload.
    - A response body may decode to any JSON value.
    - Drawing on the canvas and saving it are total, as above. *)

Module Binary64.

Import PrimFloat.
Local Open Scope float_scope.
#[local] Set Warnings "-inexact-float,-register-all".

Inductive exn : Type :=
| ZeroDivisionError      (* float division by zero *)
| ValueError             (* int() of a NaN *)
| OverflowError          (* int() of an infinity *)
| DataOverflowError      (* qrcode: no symbol holds the payload *)
| AttributeError         (* attribute missing on the value *)
| TypeError.             (* a library handed a value of the wrong type *)

(** [float(n)] for [0 <= n < 2^63] *)
Definition float_of_int (n : Z) : float := PrimFloat.of_uint63 (Uint63.of_Z n).

(** [min(a, b)]: [b] when [b < a], else [a] *)
Definition min (a b : float) : float := if b <? a then b else a.

(** [int(x)]: truncation toward zero; a NaN and the infinities raise. *)
Definition int (x : float) : exn + Z :=
  match FloatOps.Prim2SF x with
  | SpecFloat.S754_nan => inl ValueError
  | SpecFloat.S754_infinity _ => inl OverflowError
  | SpecFloat.S754_zero _ => inr 0%Z
  | SpecFloat.S754_finite negative m e =>
      let magnitude :=
        if (0 <=? e)%Z then (Z.pos m * 2 ^ e)%Z else (Z.pos m / 2 ^ (- e))%Z in
      inr (if negative then (- magnitude)%Z else magnitude)
  end.


(** [reportlab.lib.units.inch] *)
Definition inch : float := 72.

Inductive op : Type :=
| setStrokeColor (c : color)
| setLineWidth (w : float)
| rect (x y w h : float)
| drawImage (img : image) (x y width height : float) (preserveAspectRatio : bool)
| setFont (name : string) (size : Z)
| setFillColor (c : color)
| drawString (x y : float) (text : string)
| save.

Record canvas : Type := {
  filename : string;
  pagesize : float * float;
  ops : list op
}.

Definition draw (A : Type) : Type := canvas -> exn + (A * canvas).

Definition ret {A : Type} (a : A) : draw A := fun c => inr (a, c).

Definition bind {A B : Type} (m : draw A) (k : A -> draw B) : draw B :=
  fun c =>
    match m c with
    | inl e => inl e
    | inr (a, c') => k a c'
    end.

Definition raise {A : Type} (e : exn) : draw A := fun _ => inl e.

Definition push (c : canvas) (os : list op) : canvas :=
  {| filename := filename c; pagesize := pagesize c; ops := (ops c ++ os)%list |}.

Definition emit (o : op) : draw unit := fun c => inr (tt, push c [o]).

Declare Scope draw_scope.
Notation "m ;; k" := (bind m (fun _ => k)) (at level 61, right associativity) : draw_scope.
Local Open Scope draw_scope.

Definition Canvas (output_path : string) (size : float * float) : canvas :=
  {| filename := output_path; pagesize := size; ops := [] |}.

Fixpoint drawn_strings (os : list op) : list string :=
  match os with
  | [] => []
  | drawString _ _ text :: os' => text :: drawn_strings os'
  | _ :: os' => drawn_strings os'
  end.

Fixpoint drawn_qr (os : list op) : list qr_png :=
  match os with
  | [] => []
  | drawImage (ImageReader_buffer b) _ _ _ _ _ :: os' => b :: drawn_qr os'
  | _ :: os' => drawn_qr os'
  end.

Section Renderer.

(** [c.stringWidth(text, fontName, fontSize)] *)
Variable stringWidth : string -> string -> Z -> float.

(** Whether the QR encoder finds a symbol for the payload. *)
Variable qr_accepts : string -> bool.

Variable fs : string -> file_state.

Definition generate_qr_code (data : string) (size_inches : float) : exn + qr_png :=
  if qr_accepts data then
    inr {| qr_version := 1%Z;
           qr_error_correction := ERROR_CORRECT_L;
           qr_box_size := 10%Z;
           qr_border := 1%Z;
           qr_data := data;
           qr_fill_color := "black";
           qr_back_color := "white" |}
  else inl DataOverflowError.

(** Horizontal start of the text column. *)
Definition text_start_x_of (height_inches : float) : float :=
  let height_pts := height_inches * inch in
  let margin := 0.1 * inch in
  let qr_size := min (height_pts - 2 * margin) (0.75 * inch) in
  let qr_x := margin in
  qr_x + qr_size + 0.1 * inch.

Definition available_text_width_of (width_inches height_inches : float) : float :=
  let width_pts := width_inches * inch in
  let margin := 0.1 * inch in
  width_pts - text_start_x_of height_inches - margin - 0.05 * inch.

(** Baseline of the code text. *)
Definition code_y_of (height_inches : float) : float :=
  let height_pts := height_inches * inch in
  height_pts * 0.25.

(** The character budget of the truncation: the division raises on a zero
    width, [int] on a quotient that is not finite. *)
Definition max_chars_of (reg_code : string) (available_text_width text_width : float)
    : exn + Z :=
  if text_width =? 0 then inl ZeroDivisionError
  else
    match int (float_of_int (Py.len reg_code) * available_text_width / text_width) with
    | inl e => inl e
    | inr n => inr (n - 3)%Z
    end.

(** The adaptive fitting of the code text. *)
Definition fit_code_text (reg_code : string)
    (text_start_x code_y available_text_width : float) : draw unit :=
  let font_size := 7%Z in
  emit (setFont "Helvetica-Bold" font_size) ;;
  let text_width := stringWidth reg_code "Helvetica-Bold" font_size in
  if text_width <=? available_text_width then
    emit (drawString text_start_x code_y reg_code)
  else
    let font_size := 6%Z in
    emit (setFont "Helvetica-Bold" font_size) ;;
    let text_width := stringWidth reg_code "Helvetica-Bold" font_size in
    if text_width <=? available_text_width then
      emit (drawString text_start_x code_y reg_code)
    else
      let mid_point := split_point reg_code in
      let line1 := Py.slice_to reg_code mid_point in
      let line2 := Py.slice_from reg_code mid_point in
      let line1_width := stringWidth line1 "Helvetica-Bold" font_size in
      let line2_width := stringWidth line2 "Helvetica-Bold" font_size in
      if (line1_width <=? available_text_width)
         && (line2_width <=? available_text_width) then
        emit (drawString text_start_x (code_y + 0.05 * inch) line1) ;;
        emit (drawString text_start_x (code_y - 0.05 * inch) line2)
      else
        match max_chars_of reg_code available_text_width text_width with
        | inl e => raise e
        | inr max_chars =>
            let truncated_code := (Py.slice_to reg_code max_chars ++ "...")%string in
            emit (drawString text_start_x code_y truncated_code)
        end.

(** Everything [create_pdf_label] does on the canvas. *)
Definition draw_label (reg_code : string) (width_inches height_inches : float) : draw unit :=
  let width_pts := width_inches * inch in
  let height_pts := height_inches * inch in
  let margin := 0.1 * inch in
  emit (setStrokeColor lightgrey) ;;
  emit (setLineWidth 0.5) ;;
  emit (rect 2 2 (width_pts - 4) (height_pts - 4)) ;;
  let qr_size := min (height_pts - 2 * margin) (0.75 * inch) in
  let qr_x := margin in
  let qr_y := (height_pts - qr_size) / 2 in
  match generate_qr_code reg_code 0.8 with
  | inl e => raise e
  | inr qr_buffer =>
      let qr_image := ImageReader_buffer qr_buffer in
      emit (drawImage qr_image qr_x qr_y qr_size qr_size false) ;;
      let logo_path := "logo.jpg"%string in
      let logo_height := 0.25 * inch in
      let logo_width := 0.6 * inch in
      let logo_x := width_pts - margin - logo_width in
      let logo_y := height_pts - margin - logo_height in
      match fs logo_path with
      | Readable =>
          emit (drawImage (ImageReader_file logo_path) logo_x logo_y logo_width logo_height true)
      | Unreadable | Missing => ret tt
      end ;;
      let text_start_x := qr_x + qr_size + 0.1 * inch in
      let label_y := height_pts * 0.4 in
      emit (setFont "Helvetica-Bold" 9%Z) ;;
      emit (setFillColor black) ;;
      emit (drawString text_start_x label_y "Registration Code") ;;
      let code_y := height_pts * 0.25 in
      let available_text_width := width_pts - text_start_x - margin - 0.05 * inch in
      fit_code_text reg_code text_start_x code_y available_text_width ;;
      emit save
  end.

Definition create_pdf_label (reg_code : string) (qr_data_or_buffer : option qr_png)
    (output_path : string) (width_inches height_inches : float) : exn + canvas :=
  let c := Canvas output_path (width_inches * inch, height_inches * inch) in
  match draw_label reg_code width_inches height_inches c with
  | inl e => inl e
  | inr (_, c') => inr c'
  end.

(** What the fitting step of [create_pdf_label] issues on a page of the
    given size, or the exception it raises. *)
Definition code_text_ops (reg_code : string) (width_inches height_inches : float)
    : exn + list op :=
  match fit_code_text reg_code (text_start_x_of height_inches) (code_y_of height_inches)
          (available_text_width_of width_inches height_inches)
          (Canvas EmptyString (0, 0)) with
  | inl e => inl e
  | inr (_, c) => inr (ops c)
  end.

End Renderer.

(** ** Device fetch, with JSON values *)

(** A decoded JSON value, as the Python object it becomes. *)
Inductive json : Type :=
| JNull
| JBool (b : bool)
| JInt (n : Z)
| JFloat (x : float)
| JString (s : string)
| JArray (items : list json)
| JObject (members : list (string * json)).

(** [bool(v)] *)
Definition truthy (v : json) : bool :=
  match v with
  | JNull => false
  | JBool b => b
  | JInt n => negb (n =? 0)%Z
  | JFloat x => negb (x =? 0)
  | JString s => negb (String.eqb s EmptyString)
  | JArray items => match items with [] => false | _ => true end
  | JObject members => match members with [] => false | _ => true end
  end.

(** Truthiness of a value that may be [None]. *)
Definition truthy_opt (v : option json) : bool :=
  match v with
  | Some v => truthy v
  | None => false
  end.

(** [d.get(key, default)] on the members of a dict (keys are distinct) *)
Fixpoint dict_get (d : list (string * json)) (key : string) (default : json) : json :=
  match d with
  | [] => default
  | (k, v) :: d' => if String.eqb k key then v else dict_get d' key default
  end.

(** [reg_data.get(key, default)]: only a dict has the method. *)
Definition get (reg_data : json) (key : string) (default : json) : exn + json :=
  match reg_data with
  | JObject members => inr (dict_get members key default)
  | _ => inl AttributeError
  end.

(** What [response.json()] gives: a decoded value, or [JSONDecodeError]. *)
Inductive decoded : Type :=
| JSONDecodeError
| Decoded (v : json).

Inductive http_result : Type :=
| RequestException
| Response (status_code : Z) (text : string) (json : decoded).

Inductive event : Type :=
| Get (url : string) (auth : credentials)
| Render (reg_code : json) (output_path : string) (width_inches height_inches : float)
| Saved (c : canvas).

Fixpoint documents (evs : list event) : list canvas :=
  match evs with
  | [] => []
  | Saved c :: evs' => c :: documents evs'
  | _ :: evs' => documents evs'
  end.

Fixpoint requests (evs : list event) : list string :=
  match evs with
  | [] => []
  | Get url _ :: evs' => url :: requests evs'
  | _ :: evs' => requests evs'
  end.

Section Label.

Variable stringWidth : string -> string -> Z -> float.
Variable qr_accepts : string -> bool.
Variable fs : string -> file_state.
Variable requests_get : string -> credentials -> http_result.

(** What the libraries make of [create_pdf_label] when the registration
    code is not a string: the operations of a saved label, or an
    exception. *)
Variable label_of_value : json -> float -> float -> exn + list op.

(** The result is what the function returns or the exception that leaves
    it; the trace holds the requests sent either way. *)
Definition fetch_device_data (ip username password : string)
    : (exn + (option string * option json)) * list event :=
  let qr_url := ("http://" ++ ip ++ "/api/system/qr")%string in
  let reg_url := ("http://" ++ ip ++ "/api/system/registerCode")%string in
  let auth := HTTPBasicAuth username password in
  match requests_get qr_url auth with
  | RequestException => (inr (None, None), [Get qr_url auth])
  | Response qr_status qr_text _ =>
      if negb (qr_status =? 200)%Z then (inr (None, None), [Get qr_url auth])
      else
        match requests_get reg_url auth with
        | RequestException => (inr (None, None), [Get qr_url auth; Get reg_url auth])
        | Response reg_status reg_text reg_json =>
            if negb (reg_status =? 200)%Z then
              (inr (None, None), [Get qr_url auth; Get reg_url auth])
            else
              match reg_json with
              | Decoded reg_data =>
                  match get reg_data "registerCode" (JString (Py.strip reg_text)) with
                  | inl e => (inl e, [Get qr_url auth; Get reg_url auth])
                  | inr reg_code =>
                      (inr (Some qr_text, Some reg_code),
                       [Get qr_url auth; Get reg_url auth])
                  end
              | JSONDecodeError =>
                  (inr (Some qr_text, Some (JString (Py.strip reg_text))),
                   [Get qr_url auth; Get reg_url auth])
              end
        end
  end.

(** The guarded call of [create_pdf_label] at the end of [generate_label]:
    every exception is caught. *)
Definition generate_pdf (reg_code : json) (output_path : string)
    (width_inches height_inches : float) : option string * list event :=
  let label :=
    match reg_code with
    | JString reg_code =>
        create_pdf_label stringWidth qr_accepts fs reg_code None output_path
          width_inches height_inches
    | other =>
        match label_of_value other width_inches height_inches with
        | inl e => inl e
        | inr os =>
            inr {| filename := output_path;
                   pagesize := (width_inches * inch, height_inches * inch);
                   ops := os |}
        end
    end in
  match label with
  | inr c => (Some output_path, [Render reg_code output_path width_inches height_inches; Saved c])
  | inl _ => (None, [Render reg_code output_path width_inches height_inches])
  end.

Definition generate_label (device_input output_path : string)
    (width_inches height_inches : float) (username password : string)
    : (exn + option string) * list event :=
  if is_ip_address device_input then
    match fetch_device_data device_input username password with
    | (inl e, fetched) => (inl e, fetched)
    | (inr (qr_svg, reg_code), fetched) =>
        if negb (Py.truthy qr_svg) || negb (truthy_opt reg_code) then (inr None, fetched)
        else
          match reg_code with
          | Some reg_code =>
              let '(result, rendered) :=
                generate_pdf reg_code output_path width_inches height_inches in
              (inr result, (fetched ++ rendered)%list)
          | None => (inr None, fetched)
          end
    end
  else if is_registration_code device_input then
    let reg_code := JString device_input in
    let '(result, rendered) :=
      generate_pdf reg_code output_path width_inches height_inches in
    (inr result, rendered)
  else (inr None, []).

(** The namespace returned by the argument parser. *)
Record namespace : Type := {
  arg_input : string;
  arg_username : string;
  arg_password : string;
  arg_output : string;
  arg_width : float;
  arg_height : float
}.

(** [main], after argument parsing: the exit status and the trace.  An
    exception that leaves [generate_label] ends the process with status 1. *)
Definition main (args : namespace) : Z * list event :=
  match generate_label (arg_input args) (arg_output args) (arg_width args)
          (arg_height args) (arg_username args) (arg_password args) with
  | (inl _, trace) => (1%Z, trace)
  | (inr result, trace) => if Py.truthy result then (0%Z, trace) else (1%Z, trace)
  end.

(** [open(path, "rb").read()] after the trace [evs] *)
Definition read_file (path : string) (evs : list event) : option canvas :=
  find (fun c => String.eqb (filename c) path) (rev (documents evs)).

(** What the form shows after a submit. *)
Inductive message : Type :=
| error_missing_input
| error_invalid_address
| error_invalid_code
| error_failed
| error_exception
| success_generated
| download_button (pdf_data : canvas) (file_name mime : string)
| info_dimensions (width height : float).

(** The handler of the submit button of [app.py]. *)
Definition on_submit (tmpdir : string) (method : input_method)
    (device_input typed_username typed_password : string) (width height : float)
    (filename : string) : list message * list event :=
  let '(username, password) := form_credentials method typed_username typed_password in
  if String.eqb device_input EmptyString then ([error_missing_input], [])
  else if method_eqb method Device_IP_Address && negb (is_ip_address device_input) then
    ([error_invalid_address], [])
  else if method_eqb method Registration_Code
          && negb (is_registration_code device_input) then
    ([error_invalid_code], [])
  else
    let pdf_filename := (filename ++ ".pdf")%string in
    let pdf_path := os_path_join tmpdir pdf_filename in
    match generate_label device_input pdf_path width height username password with
    | (inl _, trace) => ([error_exception], trace)
    | (inr result, trace) =>
        if Py.truthy result then
          match read_file pdf_path trace with
          | Some pdf_data =>
              ([success_generated;
                download_button pdf_data pdf_filename "application/pdf";
                info_dimensions width height], trace)
          | None => ([success_generated; error_exception], trace)
          end
        else ([error_failed], trace)
    end.

End Label.

End Binary64.

(** ** Sample environments of the second embedding *)

(** The measure of reportlab's standard fonts on the Helvetica-Bold table:
    the glyph sum, times 0.001, times the size. *)
Definition helvetica_measure (text fontName : string) (fontSize : Z) : PrimFloat.float :=
  PrimFloat.mul
    (PrimFloat.mul (Binary64.float_of_int (Z.of_N (glyph_sum helvetica_bold text)))
       (PrimFloat.div (Binary64.float_of_int 1) (Binary64.float_of_int 1000)))
    (Binary64.float_of_int fontSize).

(** No QR symbol holds more than 7089 characters (version 40, level L,
    digits only): the encoder refuses every longer payload.  This oracle
    refuses those and no other. *)
Definition symbol_capacity (data : string) : bool := Py.len data <=? 7089.

Fixpoint repeat_char (c : ascii) (n : nat) : string :=
  match n with
  | O => EmptyString
  | S n' => String c (repeat_char c n')
  end.


(** No library accepts a registration code that is not a string. *)
Definition reject_value (v : Binary64.json) (w h : PrimFloat.float)
    : Binary64.exn + list Binary64.op :=
  inl Binary64.TypeError.

(** A device whose registration body is the JSON number 123. *)
Definition number_device (url : string) (auth : credentials) : Binary64.http_result :=
  Binary64.Response 200 "123" (Binary64.Decoded (Binary64.JInt 123)).

(** A device that answers every request with status 200 and the sample
    code as plain text, padded with whitespace: the body is no JSON. *)
Definition text_device (url : string) (auth : credentials) : Binary64.http_result :=
  Binary64.Response 200 "  R57NX98AAFC62AF2A " Binary64.JSONDecodeError.

(** * Properties *)

(** ** Strings and slices *)

Lemma append_empty_r (s : string) : s ++ EmptyString = s.
Proof. induction s as [|a s IH]; simpl; [reflexivity | now rewrite IH]. Qed.

Lemma append_assoc' (a b c : string) : (a ++ b) ++ c = a ++ (b ++ c).
Proof. induction a as [|x a IH]; simpl; [reflexivity | now rewrite IH]. Qed.

Lemma take_drop (n : nat) (s : string) : Py.take n s ++ Py.drop n s = s.
Proof.
  revert s; induction n as [|n IH]; intros [|a s]; simpl; try reflexivity.
  now rewrite IH.
Qed.

Lemma take_length (n : nat) (s : string) :
  String.length (Py.take n s) = Nat.min n (String.length s).
Proof.
  revert s; induction n as [|n IH]; intros [|a s]; simpl; try reflexivity.
  now rewrite IH.
Qed.

Lemma drop_nonempty (n : nat) (s : string) :
  (n < String.length s)%nat -> Py.drop n s <> EmptyString.
Proof.
  revert s; induction n as [|n IH]; intros [|a s]; simpl; intro H; try lia.
  - discriminate.
  - apply IH; lia.
Qed.

(** A string cut at any slice bound is the concatenation of its two parts. *)
Lemma slice_concat (s : string) (k : Z) : Py.slice_to s k ++ Py.slice_from s k = s.
Proof. unfold Py.slice_to, Py.slice_from; apply take_drop. Qed.

Lemma any_append (p : ascii -> bool) (a b : string) :
  Py.any p (a ++ b) = Py.any p a || Py.any p b.
Proof.
  induction a as [|x a IH]; simpl; [reflexivity | now rewrite IH, orb_assoc].
Qed.

Lemma any_exists (p : ascii -> bool) (s : string) :
  (exists pre c post, s = pre ++ String c post /\ p c = true) -> Py.any p s = true.
Proof.
  intros (pre & c & post & -> & Hc).
  rewrite any_append; simpl; rewrite Hc; now rewrite orb_true_r.
Qed.

(** ** The matcher consumes a prefix *)

Lemma run_prefix (subject : string) (c : ascii) (r : regex) :
  forall (s : string) (k : string -> bool),
    run subject r s k = true ->
    exists pre rest,
      s = pre ++ rest /\ k rest = true /\
      (musthave c r = true -> Py.contains c pre = true).
Proof.
  induction r as [ | | a | lo hi | cs | r1 IH1 r2 IH2 | r1 IH1 r2 IH2 | r1 IH1 | n r1 IH1];
    intros s k H; simpl in H.
  - apply andb_true_iff in H as [_ H].
    exists EmptyString, s; simpl; repeat split; [assumption | discriminate].
  - apply andb_true_iff in H as [_ H].
    exists EmptyString, s; simpl; repeat split; [assumption | discriminate].
  - destruct s as [|x s]; [discriminate|].
    apply andb_true_iff in H as [Hx H].
    apply Ascii.eqb_eq in Hx; subst x.
    exists (String a EmptyString), s; simpl; repeat split; [assumption|].
    unfold Py.contains; simpl; intros ->; reflexivity.
  - destruct s as [|x s]; [discriminate|].
    apply andb_true_iff in H as [_ H].
    exists (String x EmptyString), s; simpl; repeat split; [assumption | discriminate].
  - destruct s as [|x s]; [discriminate|].
    apply andb_true_iff in H as [_ H].
    exists (String x EmptyString), s; simpl; repeat split; [assumption | discriminate].
  - apply IH1 in H as (p1 & q1 & -> & H & M1).
    apply IH2 in H as (p2 & q2 & -> & H & M2).
    exists (p1 ++ p2), q2; rewrite append_assoc'; repeat split; [assumption|].
    simpl; intros M; unfold Py.contains in *; rewrite any_append.
    apply orb_true_iff in M as [M|M]; [rewrite M1 | rewrite M2, orb_true_r]; auto.
  - apply orb_true_iff in H as [H|H].
    + apply IH1 in H as (p & q & -> & H & M).
      exists p, q; repeat split; [assumption|].
      simpl; intros M'; apply andb_true_iff in M' as [M' _]; auto.
    + apply IH2 in H as (p & q & -> & H & M).
      exists p, q; repeat split; [assumption|].
      simpl; intros M'; apply andb_true_iff in M' as [_ M']; auto.
  - apply orb_true_iff in H as [H|H].
    + apply IH1 in H as (p & q & -> & H & _).
      exists p, q; simpl; repeat split; [assumption | discriminate].
    + exists EmptyString, s; simpl; repeat split; [assumption | discriminate].
  - revert s H; induction n as [|n IHn]; intros s H.
    + exists EmptyString, s; simpl; repeat split; [assumption | discriminate].
    + apply IH1 in H as (p1 & q1 & -> & H & M1).
      apply IHn in H as (p2 & q2 & -> & H & M2).
      exists (p1 ++ p2), q2; rewrite append_assoc'; repeat split; [assumption|].
      simpl; intros M; unfold Py.contains in *; rewrite any_append.
      rewrite M1; [reflexivity | exact M].
Qed.

Lemma ip_address_has_dot (s : string) :
  is_ip_address s = true -> Py.contains "." s = true.
Proof.
  unfold is_ip_address, is_match; intros H.
  apply (run_prefix s "."%char) in H as (pre & rest & E & _ & M).
  rewrite E; unfold Py.contains in *; rewrite any_append, M; reflexivity.
Qed.

Lemma registration_code_no_dot (s : string) :
  is_registration_code s = true -> Py.contains "." s = false.
Proof.
  unfold is_registration_code.
  destruct (Py.len s <? 10); [discriminate|].
  destruct (Py.contains "." s); [discriminate | reflexivity].
Qed.

(** C5: every string falls in exactly one of the three categories:
    [is_ip_address] and [is_registration_code] are never both true, and
    the dispatch of [generate_label] names the one that applies
    (NetworkAddress, OpaqueCode, or Unrecognized when both are false). *)
Theorem classification_total_exclusive (s : string) :
  (is_ip_address s = true /\ is_registration_code s = false
     /\ classify s = NetworkAddress)
  \/ (is_ip_address s = false /\ is_registration_code s = true
     /\ classify s = OpaqueCode)
  \/ (is_ip_address s = false /\ is_registration_code s = false
     /\ classify s = Unrecognized).
Proof.
  unfold classify.
  destruct (is_ip_address s) eqn:Hip.
  - left; repeat split.
    destruct (is_registration_code s) eqn:Hreg; [|reflexivity].
    apply ip_address_has_dot in Hip.
    apply registration_code_no_dot in Hreg; congruence.
  - destruct (is_registration_code s); [right; left | right; right]; repeat split.
Qed.

(** C6: a string of length at least 10 with no '.', at least one letter and
    at least one digit is accepted by [is_registration_code], and the
    classification is OpaqueCode. *)
Theorem registration_code_accepts (s : string) :
  10 <= Py.len s ->
  Py.contains "." s = false ->
  (exists pre c post, s = pre ++ String c post /\ Py.isalpha c = true) ->
  (exists pre c post, s = pre ++ String c post /\ Py.isdigit c = true) ->
  is_registration_code s = true /\ classify s = OpaqueCode.
Proof.
  intros Hlen Hdot Ha Hd.
  assert (Hreg : is_registration_code s = true).
  { unfold is_registration_code.
    destruct (Z.ltb_spec (Py.len s) 10) as [Hlt|_]; [lia|].
    rewrite Hdot, (any_exists _ _ Ha), (any_exists _ _ Hd); reflexivity. }
  split; [exact Hreg|].
  unfold classify; rewrite Hreg.
  destruct (is_ip_address s) eqn:Hip; [|reflexivity].
  apply ip_address_has_dot in Hip; congruence.
Qed.

Lemma registration_code_accepts_witness :
  is_registration_code "R57NX98AAFC62AF2A" = true
  /\ classify "R57NX98AAFC62AF2A" = OpaqueCode.
Proof.
  apply registration_code_accepts.
  - vm_compute; discriminate.
  - reflexivity.
  - exists EmptyString, "R"%char, "57NX98AAFC62AF2A"; split; reflexivity.
  - exists "R", "5"%char, "7NX98AAFC62AF2A"; split; reflexivity.
Defined.

(** ** Canvas bookkeeping *)

Lemma push_push (c : canvas) (a b : list op) : push (push c a) b = push c (a ++ b).
Proof. unfold push; simpl; now rewrite <- app_assoc. Qed.

Lemma push_nil (c : canvas) : ops (push c []) = ops c.
Proof. unfold push; simpl; apply app_nil_r. Qed.

Lemma drawn_strings_app (a b : list op) :
  drawn_strings (a ++ b) = (drawn_strings a ++ drawn_strings b)%list.
Proof.
  induction a as [|o a IH]; simpl; [reflexivity|].
  destruct o; simpl; rewrite IH; reflexivity.
Qed.

Lemma drawn_qr_app (a b : list op) :
  drawn_qr (a ++ b) = (drawn_qr a ++ drawn_qr b)%list.
Proof.
  induction a as [|o a IH]; simpl; [reflexivity|].
  destruct o as [| | |[]| | | |]; simpl; rewrite IH; reflexivity.
Qed.

(** ** Measured widths *)



Section Widths.

Variable font_widths : string -> ascii -> N.

Lemma stringWidth_nonneg (s f : string) (n : Z) :
  0 <= n -> (0 <= stringWidth font_widths s f n)%Q.
Proof.
  intros Hn; unfold stringWidth, Qle; simpl.
  pose proof (N2Z.is_nonneg (glyph_sum (font_widths f) s)); nia.
Qed.





(** The fitting step with the canvas threading computed away: the four
    layouts in their fallback order, and the division by a zero width. *)
Lemma fit_code_text_unfold (reg_code : string) (x y avail : Q) (c : canvas) :
  fit_code_text font_widths reg_code x y avail c =
  let width n s := stringWidth font_widths s "Helvetica-Bold" n in
  let m := split_point reg_code in
  if Qle_bool (width 7 reg_code) avail then
    inr (tt, push c [setFont "Helvetica-Bold" 7; drawString x y reg_code])
  else if Qle_bool (width 6 reg_code) avail then
    inr (tt, push c [setFont "Helvetica-Bold" 7; setFont "Helvetica-Bold" 6;
                     drawString x y reg_code])
  else if Qle_bool (width 6 (Py.slice_to reg_code m)) avail
          && Qle_bool (width 6 (Py.slice_from reg_code m)) avail then
    inr (tt, push c [setFont "Helvetica-Bold" 7; setFont "Helvetica-Bold" 6;
                     drawString x (y + (1 # 20) * inch) (Py.slice_to reg_code m);
                     drawString x (y - (1 # 20) * inch) (Py.slice_from reg_code m)])
  else if Qeq_bool (width 6 reg_code) 0 then inl ZeroDivisionError
  else
    inr (tt, push c [setFont "Helvetica-Bold" 7; setFont "Helvetica-Bold" 6;
                     drawString x y
                       (Py.slice_to reg_code
                          (Py.int (inject_Z (Py.len reg_code) * avail / width 6 reg_code) - 3)
                        ++ "...")]).
Proof.
  unfold fit_code_text, bind, emit, raise; cbv zeta.
  destruct (Qle_bool _ avail); [now rewrite push_push|].
  destruct (Qle_bool _ avail); [now rewrite !push_push|].
  destruct (_ && _); [now rewrite !push_push|].
  destruct (Qeq_bool _ 0); [reflexivity|].
  now rewrite !push_push.
Qed.

End Widths.

(** ** The label around the code text *)

Section Label_facts.

Variable font_widths : string -> ascii -> N.
Variable fs : string -> file_state.

(** Before the fitting step the label holds the frame, one QR image made
    from [reg_code], possibly the logo, and the caption; the fitting step
    runs on that canvas with the page's text column, and the save follows. *)
Lemma draw_label_shape (reg_code : string) (w h : Q) (c : canvas) :
  exists pre,
    drawn_strings pre = ["Registration Code"]
    /\ drawn_qr pre = [generate_qr_code reg_code (8 # 10)]
    /\ ~ In (setFont "Helvetica-Bold" 6) pre
    /\ draw_label font_widths fs reg_code w h c =
       match fit_code_text font_widths reg_code (text_start_x_of h)
               (code_y_of h) (available_text_width_of w h) (push c pre) with
       | inl e => inl e
       | inr (_, c') => inr (tt, push c' [save])
       end.
Proof.
  unfold draw_label, bind, emit, ret; cbv zeta.
  destruct (fs "logo.jpg"); rewrite ?push_push; cbn [app];
    eexists; (split; [|split; [|split; [|reflexivity]]]);
    try reflexivity;
    cbn [In]; intros H;
    repeat (destruct H as [H|H]; [discriminate H|]); exact H.
Qed.

End Label_facts.


(** Whatever the fitting step issues is font selections and text: one line
    (the code or a truncation of it) or the two slices at the split point. *)
Lemma fit_code_text_issues (font_widths : string -> ascii -> N) (reg_code : string)
    (x y avail : Q) (c c' : canvas) :
  fit_code_text font_widths reg_code x y avail c = inr (tt, c') ->
  exists os,
    c' = push c os
    /\ drawn_qr os = []
    /\ (drawn_strings os = [reg_code]
        \/ drawn_strings os = [Py.slice_to reg_code (split_point reg_code);
                               Py.slice_from reg_code (split_point reg_code)]
        \/ exists k, drawn_strings os = [Py.slice_to reg_code k ++ "..."]).
Proof.
  rewrite fit_code_text_unfold; cbv beta zeta.
  destruct (Qle_bool _ avail).
  { intros [= <-]; eexists; split; [reflexivity|]; split; [reflexivity|]; now left. }
  destruct (Qle_bool _ avail).
  { intros [= <-]; eexists; split; [reflexivity|]; split; [reflexivity|]; now left. }
  destruct (_ && _).
  { intros [= <-]; eexists; split; [reflexivity|]; split; [reflexivity|].
    right; now left. }
  destruct (Qeq_bool _ 0); [discriminate|].
  intros [= <-]; eexists; split; [reflexivity|]; split; [reflexivity|].
  right; right; eexists; reflexivity.
Qed.

(** A saved label: caption, QR image of [reg_code], then the fitted text. *)
Lemma create_pdf_label_saved (font_widths : string -> ascii -> N) (fs : string -> file_state)
    (reg_code : string) (qr : option qr_png) (output_path : string) (w h : Q) (c : canvas) :
  create_pdf_label font_widths fs reg_code qr output_path w h = inr c ->
  exists os,
    drawn_qr (ops c) = [generate_qr_code reg_code (8 # 10)]
    /\ drawn_strings (ops c) = "Registration Code" :: drawn_strings os
    /\ (drawn_strings os = [reg_code]
        \/ drawn_strings os = [Py.slice_to reg_code (split_point reg_code);
                               Py.slice_from reg_code (split_point reg_code)]
        \/ exists k, drawn_strings os = [Py.slice_to reg_code k ++ "..."]).
Proof.
  unfold create_pdf_label.
  destruct (draw_label_shape font_widths fs reg_code w h
              (Canvas output_path ((w * inch)%Q, (h * inch)%Q)))
    as (pre & Hs & Hq & _ & ->).
  destruct (fit_code_text _ _ _ _ _ _) as [e|[[] c1]] eqn:Hfit; [discriminate|].
  intros [= <-].
  apply fit_code_text_issues in Hfit as (os & -> & Hqr & Hcases).
  exists os; rewrite !push_push; cbn [push ops Canvas app].
  rewrite !drawn_qr_app, !drawn_strings_app, Hs, Hq, Hqr; cbn.
  rewrite app_nil_r; auto.
Qed.

(** C3: whenever the saved label shows the code as two lines, the first
    line followed by the second is the original code. *)
Theorem two_lines_concat (font_widths : string -> ascii -> N) (fs : string -> file_state)
    (reg_code : string) (qr : option qr_png) (output_path : string) (w h : Q)
    (c : canvas) (line1 line2 : string) :
  create_pdf_label font_widths fs reg_code qr output_path w h = inr c ->
  drawn_strings (ops c) = ["Registration Code"; line1; line2] ->
  line1 ++ line2 = reg_code.
Proof.
  intros Hc Hlines.
  apply create_pdf_label_saved in Hc as (os & _ & Hs & Hcases).
  rewrite Hs in Hlines.
  destruct Hcases as [H | [H | [k H]]]; rewrite H in Hlines; try discriminate.
  injection Hlines as <- <-; apply slice_concat.
Qed.

Lemma two_lines_concat_witness : "A1------" ++ "------------" = dashed.
Proof.
  eapply (two_lines_concat std_fonts no_logo dashed None "device_label.pdf" (15 # 10) 1).
  - vm_compute; reflexivity.
  - vm_compute; reflexivity.
Defined.

(** C8: the one QR image of a saved label is generated from the full
    registration code, whichever layout the code text got (a truncated
    text line included). *)
Theorem qr_encodes_full_code (font_widths : string -> ascii -> N) (fs : string -> file_state)
    (reg_code : string) (qr : option qr_png) (output_path : string) (w h : Q) (c : canvas) :
  create_pdf_label font_widths fs reg_code qr output_path w h = inr c ->
  exists b, drawn_qr (ops c) = [b]
            /\ b = generate_qr_code reg_code (8 # 10)
            /\ qr_data b = reg_code.
Proof.
  intros Hc; apply create_pdf_label_saved in Hc as (os & Hq & _).
  eexists; split; [exact Hq|]; split; reflexivity.
Qed.

Lemma qr_encodes_full_code_witness :
  exists c,
    create_pdf_label std_fonts no_logo wide_then_narrow None "device_label.pdf"
      default_width default_height = inr c
    /\ drawn_strings (ops c) = ["Registration Code"; "WWWWWWWWWWWWWWWWWWWWW..."]
    /\ exists b, drawn_qr (ops c) = [b]
                 /\ b = generate_qr_code wide_then_narrow (8 # 10)
                 /\ qr_data b = wide_then_narrow.
Proof.
  eexists; split; [vm_compute; reflexivity|].
  split; [vm_compute; reflexivity|].
  eapply (qr_encodes_full_code std_fonts no_logo wide_then_narrow None "device_label.pdf"
            default_width default_height).
  vm_compute; reflexivity.
Defined.

(** ** A registration code has a letter *)



(** ** The split point *)

Lemma get_in_range (n : nat) (s : string) :
  (n < String.length s)%nat -> exists a, String.get n s = Some a.
Proof.
  revert n; induction s as [|x s IH]; simpl; intros n H; [lia|].
  destruct n as [|n]; [eexists; reflexivity|].
  apply IH; lia.
Qed.

(** Inside the string, indexing raises nothing. *)
Lemma index_in_range (s : string) (i : Z) :
  0 <= i < Py.len s -> exists a, Py.index s i = Some a.
Proof.
  intros H; unfold Py.index.
  destruct (Z.leb_spec 0 i); [|lia].
  destruct (Z.ltb_spec i (Py.len s)); [|lia].
  apply get_in_range; unfold Py.len in *; lia.
Qed.

(** The test of the break search, on the characters it reads. *)
Lemma logical_point_spec (reg_code : string) (i : Z) :
  logical_point reg_code i = true <->
  0 < i < Py.len reg_code
  /\ exists a b,
       Py.index reg_code (i - 1) = Some a
       /\ Py.index reg_code i = Some b
       /\ (Py.isalnum a = false \/ Py.isalnum b = false).
Proof.
  unfold logical_point; split.
  - intros H; apply andb_true_iff in H as [H Hc].
    apply andb_true_iff in H as [H0 H1].
    apply Z.ltb_lt in H0, H1; split; [lia|].
    destruct (Py.index reg_code (i - 1)) as [a|]; [|discriminate].
    destruct (Py.index reg_code i) as [b|]; [|discriminate].
    exists a, b; repeat split.
    apply orb_true_iff in Hc as [Hc|Hc]; apply negb_true_iff in Hc; auto.
  - intros ([H0 H1] & a & b & -> & -> & Hc).
    apply Z.ltb_lt in H0, H1; rewrite H0, H1; simpl.
    destruct Hc as [-> | ->]; simpl; [reflexivity | apply orb_true_r].
Qed.

Lemma range_window (mid : Z) :
  Py.range (mid - 2) (mid + 3) = [mid - 2; mid - 1; mid; mid + 1; mid + 2].
Proof.
  unfold Py.range; replace (mid + 3 - (mid - 2)) with 5 by lia; simpl.
  repeat (f_equal; try lia).
Qed.

(** The loop returns the least position of the window that passes the
    test, and the midpoint when none does. *)
Lemma split_point_least (reg_code : string) :
  let mid := Py.len reg_code / 2 in
  let m := split_point reg_code in
  (forall i, mid - 2 <= i <= mid + 2 -> logical_point reg_code i = true ->
             logical_point reg_code m = true /\ mid - 2 <= m <= i)
  /\ ((forall i, mid - 2 <= i <= mid + 2 -> logical_point reg_code i = false) -> m = mid).
Proof.
  intros mid m; unfold m, split_point; fold mid.
  rewrite range_window; simpl.
  split.
  - intros i Hi Hp.
    assert (Hcases : i = mid - 2 \/ i = mid - 1 \/ i = mid \/ i = mid + 1 \/ i = mid + 2)
      by lia.
    destruct (logical_point reg_code (mid - 2)) eqn:E0; [split; [exact E0 | lia]|].
    destruct (logical_point reg_code (mid - 1)) eqn:E1;
      [split; [exact E1|]; destruct Hcases as [->|Hcases]; [congruence | lia]|].
    destruct (logical_point reg_code mid) eqn:E2;
      [split; [exact E2|];
       destruct Hcases as [->|[->|Hcases]]; [congruence | congruence | lia]|].
    destruct (logical_point reg_code (mid + 1)) eqn:E3;
      [split; [exact E3|];
       destruct Hcases as [->|[->|[->|Hcases]]];
       [congruence | congruence | congruence | lia]|].
    destruct (logical_point reg_code (mid + 2)) eqn:E4;
      [split; [exact E4|];
       destruct Hcases as [->|[->|[->|[->|Hcases]]]];
       [congruence | congruence | congruence | congruence | lia]|].
    destruct Hcases as [->|[->|[->|[->| ->]]]]; congruence.
  - intros Hnone.
    rewrite !Hnone by lia; reflexivity.
Qed.




(** ** The top-level operation *)

(** The fetch only talks to the device. *)
Lemma fetch_device_data_only_gets (requests_get : string -> credentials -> http_result)
    (ip username password : string) :
  render_invoked (snd (fetch_device_data requests_get ip username password)) = false
  /\ documents (snd (fetch_device_data requests_get ip username password)) = [].
Proof.
  unfold fetch_device_data.
  destruct (requests_get _ _) as [|s1 t1 j1]; [split; reflexivity|].
  destruct (negb (s1 =? 200)); [split; reflexivity|].
  destruct (requests_get _ _) as [|s2 t2 j2]; [split; reflexivity|].
  destruct (negb (s2 =? 200)); split; reflexivity.
Qed.

(** The dispatch of [generate_label] follows [classify]: an address is
    fetched first, a registration code goes straight to the renderer, and
    anything else is rejected. *)
Lemma generate_label_dispatch (font_widths : string -> ascii -> N)
    (fs : string -> file_state) (requests_get : string -> credentials -> http_result)
    (device_input output_path : string) (w h : Q) (username password : string) :
  match classify device_input with
  | NetworkAddress =>
      exists rest,
        snd (generate_label font_widths fs requests_get device_input output_path w h
               username password)
        = (snd (fetch_device_data requests_get device_input username password) ++ rest)%list
  | OpaqueCode =>
      generate_label font_widths fs requests_get device_input output_path w h
        username password
      = generate_pdf font_widths fs device_input output_path w h
  | Unrecognized =>
      generate_label font_widths fs requests_get device_input output_path w h
        username password
      = (None, [])
  end.
Proof.
  unfold classify, generate_label.
  destruct (is_ip_address device_input).
  - destruct (fetch_device_data _ _ _ _) as [[qr_svg reg_code] fetched]; simpl.
    destruct (negb (Py.truthy qr_svg) || negb (Py.truthy reg_code));
      [exists []; simpl; now rewrite app_nil_r|].
    destruct reg_code as [reg_code|]; [|exists []; simpl; now rewrite app_nil_r].
    destruct (generate_pdf _ _ _ _ _ _) as [result rendered]; simpl.
    exists rendered; reflexivity.
  - destruct (is_registration_code device_input); reflexivity.
Qed.

(** C9: an input that is neither an address nor a registration code makes
    [generate_label] return [None] with an empty trace: no request is
    sent, [create_pdf_label] is not called and no document is written. *)
Theorem unrecognized_input_rejected (font_widths : string -> ascii -> N)
    (fs : string -> file_state) (requests_get : string -> credentials -> http_result)
    (device_input output_path : string) (w h : Q) (username password : string) :
  is_ip_address device_input = false ->
  is_registration_code device_input = false ->
  generate_label font_widths fs requests_get device_input output_path w h username password
  = (None, []).
Proof.
  intros Hip Hreg; unfold generate_label; rewrite Hip, Hreg; reflexivity.
Qed.

Lemma unrecognized_input_rejected_witness :
  generate_label std_fonts no_logo blank_device "not-an-address-or-code!" "device_label.pdf"
    default_width default_height "admin" "123456"
  = (None, []).
Proof.
  apply unrecognized_input_rejected; reflexivity.
Defined.

(** C10: in the address flow, when the fetch hands back an empty string as
    QR payload or as registration code, [generate_label] returns [None]
    after the fetch: its trace is that of the fetch, in which
    [create_pdf_label] is not called and no document is written. *)
Theorem empty_fetch_aborts (font_widths : string -> ascii -> N)
    (fs : string -> file_state) (requests_get : string -> credentials -> http_result)
    (device_input output_path : string) (w h : Q) (username password : string)
    (qr_svg reg_code : option string) (fetched : list event) :
  is_ip_address device_input = true ->
  fetch_device_data requests_get device_input username password
    = ((qr_svg, reg_code), fetched) ->
  qr_svg = Some EmptyString \/ reg_code = Some EmptyString ->
  generate_label font_widths fs requests_get device_input output_path w h username password
    = (None, fetched)
  /\ render_invoked fetched = false
  /\ documents fetched = [].
Proof.
  intros Hip Hfetch Hempty.
  pose proof (fetch_device_data_only_gets requests_get device_input username password)
    as [Hr Hd].
  rewrite Hfetch in Hr, Hd; simpl in Hr, Hd.
  split; [|split; assumption].
  unfold generate_label; rewrite Hip, Hfetch.
  destruct Hempty as [-> | ->]; simpl; [reflexivity|].
  rewrite orb_true_r; reflexivity.
Qed.

Lemma empty_fetch_aborts_witness :
  generate_label std_fonts no_logo blank_device "192.168.1.100" "device_label.pdf"
    default_width default_height "admin" "123456"
  = (None, [Get "http://192.168.1.100/api/system/qr" (HTTPBasicAuth "admin" "123456");
            Get "http://192.168.1.100/api/system/registerCode"
              (HTTPBasicAuth "admin" "123456")])
  /\ render_invoked
       [Get "http://192.168.1.100/api/system/qr" (HTTPBasicAuth "admin" "123456");
        Get "http://192.168.1.100/api/system/registerCode"
          (HTTPBasicAuth "admin" "123456")] = false
  /\ documents
       [Get "http://192.168.1.100/api/system/qr" (HTTPBasicAuth "admin" "123456");
        Get "http://192.168.1.100/api/system/registerCode"
          (HTTPBasicAuth "admin" "123456")] = [].
Proof.
  eapply (empty_fetch_aborts std_fonts no_logo blank_device "192.168.1.100"
            "device_label.pdf" default_width default_height "admin" "123456"
            (Some EmptyString) (Some EmptyString)).
  - reflexivity.
  - reflexivity.
  - left; reflexivity.
Defined.

(** ** Evaluations *)

Example ip_ok : is_ip_address "192.168.1.100" = true.
Proof. reflexivity. Qed.

Example ip_octet_256 : is_ip_address "256.1.1.1" = false.
Proof. reflexivity. Qed.

Example ip_three_octets : is_ip_address "1.2.3" = false.
Proof. reflexivity. Qed.

Example ip_trailing_newline : is_ip_address ("10.0.0.1" ++ newline) = true.
Proof. reflexivity. Qed.

Example reg_ok : classify sample_code = OpaqueCode.
Proof. reflexivity. Qed.

Example reg_short : is_registration_code "R57NX98A" = false.
Proof. reflexivity. Qed.

Example default_available_width :
  (available_text_width_of default_width default_height == 1098 # 10)%Q.
Proof. reflexivity. Qed.

Example one_inch_available_width : (available_text_width_of 1 1 == - (72 # 10))%Q.
Proof. reflexivity. Qed.

Example strip_spaces : Py.strip "  R57NX98AAFC62AF2A " = "R57NX98AAFC62AF2A".
Proof. reflexivity. Qed.

(** A registration code is rendered on the default label without any
    request: one call of [create_pdf_label], one document. *)
Example label_for_sample_code :
  let '(result, trace) :=
    generate_label std_fonts no_logo blank_device sample_code "device_label.pdf"
      default_width default_height "admin" "123456" in
  result = Some "device_label.pdf"
  /\ render_invoked trace = true
  /\ List.length (documents trace) = 1%nat
  /\ List.length trace = 2%nat.
Proof. vm_compute; repeat split. Qed.

(** Outside the registration codes: the empty code on a one-inch label has
    width zero, the available width is negative, and the budget divides
    by that zero width. *)
Example empty_code_one_inch_label :
  code_text_ops std_fonts EmptyString 1 1 = inl ZeroDivisionError.
Proof. vm_compute; reflexivity. Qed.

(** * Further properties *)

(** ** The address pattern, characterised *)

Lemma run_lang (subject : string) (r : regex) :
  forall (s : string) (k : string -> bool),
    run subject r s k = true ->
    exists pre rest, s = pre ++ rest /\ lang r pre /\ k rest = true.
Proof.
  induction r as [ | | a | lo hi | cs | r1 IH1 r2 IH2 | r1 IH1 r2 IH2 | r1 IH1 | n r1 IH1];
    intros s k H; simpl in H.
  - apply andb_true_iff in H as [_ H]; exists EmptyString, s; simpl; auto.
  - apply andb_true_iff in H as [_ H]; exists EmptyString, s; simpl; auto.
  - destruct s as [|x s]; [discriminate|].
    apply andb_true_iff in H as [Hx H]; apply Ascii.eqb_eq in Hx; subst x.
    exists (String a EmptyString), s; simpl; auto.
  - destruct s as [|x s]; [discriminate|].
    apply andb_true_iff in H as [Hx H].
    exists (String x EmptyString), s; simpl; repeat split; eauto.
  - destruct s as [|x s]; [discriminate|].
    apply andb_true_iff in H as [Hx H].
    exists (String x EmptyString), s; simpl; repeat split; eauto.
  - apply IH1 in H as (p1 & q1 & -> & L1 & H).
    apply IH2 in H as (p2 & q2 & -> & L2 & H).
    exists (p1 ++ p2), q2; rewrite append_assoc'; repeat split; [|assumption].
    simpl; eauto.
  - apply orb_true_iff in H as [H|H];
      [apply IH1 in H | apply IH2 in H];
      destruct H as (p & q & -> & L & H); exists p, q; simpl; auto.
  - apply orb_true_iff in H as [H|H].
    + apply IH1 in H as (p & q & -> & L & H); exists p, q; simpl; auto.
    + exists EmptyString, s; simpl; auto.
  - revert s H; induction n as [|n IHn]; intros s H.
    + exists EmptyString, s; simpl; auto.
    + apply IH1 in H as (p1 & q1 & -> & L1 & H).
      apply IHn in H as (p2 & q2 & -> & L2 & H).
      exists (p1 ++ p2), q2; rewrite append_assoc'; repeat split; [|assumption].
      simpl; eauto.
Qed.

Lemma lang_run (subject : string) (r : regex) :
  anchor_free r = true ->
  forall (pre rest : string) (k : string -> bool),
    lang r pre -> k rest = true -> run subject r (pre ++ rest) k = true.
Proof.
  induction r as [ | | a | lo hi | cs | r1 IH1 r2 IH2 | r1 IH1 r2 IH2 | r1 IH1 | n r1 IH1];
    simpl; intros Hfree pre rest k L Hk; try discriminate.
  - subst pre; simpl; now rewrite Ascii.eqb_refl.
  - destruct L as (a & -> & Ha); simpl; now rewrite Ha.
  - destruct L as (a & -> & Ha); simpl; now rewrite Ha.
  - apply andb_true_iff in Hfree as [F1 F2].
    destruct L as (w1 & w2 & -> & L1 & L2).
    rewrite append_assoc'; apply IH1; auto.
  - apply andb_true_iff in Hfree as [F1 F2].
    destruct L as [L|L]; [rewrite IH1 | rewrite IH2, orb_true_r]; auto.
  - destruct L as [-> | L]; [simpl; now rewrite Hk, orb_true_r|].
    rewrite IH1; auto.
  - revert pre L; induction n as [|n IHn]; intros pre L.
    + subst pre; exact Hk.
    + destruct L as (w1 & w2 & -> & L1 & L2).
      rewrite append_assoc'; apply IH1; auto.
Qed.

Lemma between_nat (lo hi a : ascii) :
  Py.between lo hi a = true <->
  (nat_of_ascii lo <= nat_of_ascii a <= nat_of_ascii hi)%nat.
Proof.
  unfold Py.between; rewrite andb_true_iff, !Nat.leb_le; reflexivity.
Qed.

Lemma ascii_of_code (a b : ascii) : nat_of_ascii a = nat_of_ascii b -> a = b.
Proof.
  intros H; rewrite <- (ascii_nat_embedding a), <- (ascii_nat_embedding b), H; reflexivity.
Qed.

Lemma code_0 : nat_of_ascii "0" = 48%nat.
Proof. reflexivity. Qed.
Lemma code_1 : nat_of_ascii "1" = 49%nat.
Proof. reflexivity. Qed.
Lemma code_2 : nat_of_ascii "2" = 50%nat.
Proof. reflexivity. Qed.
Lemma code_4 : nat_of_ascii "4" = 52%nat.
Proof. reflexivity. Qed.
Lemma code_5 : nat_of_ascii "5" = 53%nat.
Proof. reflexivity. Qed.
Lemma code_9 : nat_of_ascii "9" = 57%nat.
Proof. reflexivity. Qed.

Ltac codes :=
  rewrite ?between_nat, ?code_0, ?code_1, ?code_2, ?code_4, ?code_5, ?code_9 in *.

Lemma isdigit_nat (a : ascii) :
  Py.isdigit a = true <-> (48 <= nat_of_ascii a <= 57)%nat.
Proof. unfold Py.isdigit; rewrite between_nat, code_0, code_9; reflexivity. Qed.

Lemma one_of_01 (x : ascii) :
  Py.contains x "01" = true <-> (48 <= nat_of_ascii x <= 49)%nat.
Proof.
  unfold Py.contains; simpl; rewrite orb_false_r, orb_true_iff, !Ascii.eqb_eq; split.
  - intros [-> | ->]; codes; lia.
  - intros H.
    assert (E : nat_of_ascii x = 48%nat \/ nat_of_ascii x = 49%nat) by lia.
    destruct E as [E|E]; [left | right]; apply ascii_of_code; codes; exact E.
Qed.

(** The strings consumed by the octet pattern are the octets. *)
Lemma lang_octet (o : string) : lang octet o <-> is_octet o = true.
Proof.
  split.
  - intros L; unfold octet in L; simpl in L.
    destruct L as [L | [L | L]].
    + destruct L as (w1 & w2 & -> & -> & w3 & w4 & -> & -> & a & -> & Ha).
      cbn [append]; unfold is_octet, digit_value.
      rewrite !andb_true_iff, !isdigit_nat, Nat.leb_le; codes; lia.
    + destruct L as (w1 & w2 & -> & -> & w3 & w4 & -> & (a & -> & Ha) & b & -> & Hb).
      cbn [append]; unfold is_octet, digit_value.
      rewrite !andb_true_iff, !isdigit_nat, Nat.leb_le; codes; lia.
    + destruct L as (w1 & w2 & -> & Lp & w3 & w4 & -> & (a & -> & Ha) & Lq).
      destruct Lp as [-> | (x & -> & Hx)]; destruct Lq as [-> | (b & -> & Hb)];
        cbn [append]; unfold is_octet, digit_value;
        try apply one_of_01 in Hx;
        rewrite ?andb_true_iff, ?isdigit_nat, ?Nat.leb_le; codes; lia.
  - intros H; unfold octet; simpl.
    destruct o as [|a [|b [|c [|d o]]]]; simpl in H; try discriminate.
    + apply isdigit_nat in H.
      right; right; exists EmptyString, (String a EmptyString); repeat split; [now left|].
      exists (String a EmptyString), EmptyString; repeat split; [|now left].
      exists a; split; [reflexivity | codes; lia].
    + apply andb_true_iff in H as [Ha Hb]; apply isdigit_nat in Ha, Hb.
      right; right; exists EmptyString, (String a (String b EmptyString)).
      repeat split; [now left|].
      exists (String a EmptyString), (String b EmptyString); repeat split.
      * exists a; split; [reflexivity | codes; lia].
      * right; exists b; split; [reflexivity | codes; lia].
    + rewrite !andb_true_iff, !isdigit_nat, Nat.leb_le in H.
      destruct H as [[[Ha Hb] Hc] Hv]; unfold digit_value in Hv.
      destruct (Nat.le_gt_cases (nat_of_ascii a) 49) as [Ha1|Ha1].
      * right; right; exists (String a EmptyString), (String b (String c EmptyString)).
        repeat split; [right; exists a; split; [reflexivity | apply one_of_01; lia]|].
        exists (String b EmptyString), (String c EmptyString); repeat split.
        -- exists b; split; [reflexivity | codes; lia].
        -- right; exists c; split; [reflexivity | codes; lia].
      * assert (Ea : a = "2"%char) by (apply ascii_of_code; codes; lia); subst a.
        rewrite code_2 in Hv.
        destruct (Nat.le_gt_cases (nat_of_ascii b) 52) as [Hb1|Hb1].
        -- right; left.
           exists "2", (String b (String c EmptyString)); repeat split.
           exists (String b EmptyString), (String c EmptyString); repeat split.
           ++ exists b; split; [reflexivity | codes; lia].
           ++ exists c; split; [reflexivity | codes; lia].
        -- assert (Eb : b = "5"%char) by (apply ascii_of_code; codes; lia); subst b.
           rewrite code_5 in Hv.
           left.
           exists "2", (String "5" (String c EmptyString)); repeat split.
           exists "5", (String c EmptyString); repeat split.
           exists c; split; [reflexivity | codes; lia].
Qed.

Lemma run_cat (subject : string) (r1 r2 : regex) (s : string) (k : string -> bool) :
  run subject (Cat r1 r2) s k = run subject r1 s (fun s' => run subject r2 s' k).
Proof. reflexivity. Qed.

Lemma run_caret (subject s : string) (k : string -> bool) :
  run subject Caret s k = (String.length s =? String.length subject)%nat && k s.
Proof. reflexivity. Qed.

Lemma run_dollar (subject s : string) (k : string -> bool) :
  run subject Dollar s k = at_dollar s && k s.
Proof. reflexivity. Qed.

Lemma at_dollar_iff (s : string) :
  at_dollar s = true <-> s = EmptyString \/ s = newline.
Proof.
  unfold at_dollar; rewrite orb_true_iff, !String.eqb_eq; reflexivity.
Qed.

Lemma ip_pattern_spec (s : string) :
  is_ip_address s = true <->
  exists a b c d,
    is_octet a = true /\ is_octet b = true /\ is_octet c = true /\ is_octet d = true
    /\ (s = dotted a b c d \/ s = dotted a b c d ++ newline).
Proof.
  unfold is_ip_address, is_match, ip_pattern; split.
  - intros H; rewrite run_cat, run_caret in H.
    apply andb_true_iff in H as [_ H]; rewrite run_cat in H.
    apply run_lang in H as (p1 & q1 & E1 & L1 & H).
    rewrite run_cat in H.
    apply run_lang in H as (d & tail & -> & Ld & H).
    rewrite run_dollar, andb_true_r in H; apply at_dollar_iff in H.
    cbn [lang] in L1.
    destruct L1 as (w1 & x1 & -> & (a & y1 & -> & La & ->)
                    & w2 & x2 & -> & (b & y2 & -> & Lb & ->)
                    & w3 & x3 & -> & (c & y3 & -> & Lc & ->) & ->).
    apply lang_octet in La, Lb, Lc, Ld.
    exists a, b, c, d; repeat split; try assumption.
    rewrite E1; unfold dotted.
    destruct H as [-> | ->]; [left | right];
      rewrite ?append_assoc', ?append_empty_r; reflexivity.
  - intros (a & b & c & d & Ha & Hb & Hc & Hd & Hs).
    apply lang_octet in Ha, Hb, Hc, Hd.
    rewrite run_cat, run_caret, Nat.eqb_refl; cbn [andb].
    rewrite run_cat.
    assert (E : exists tail, at_dollar tail = true
                /\ s = ((a ++ ".") ++ ((b ++ ".") ++ ((c ++ ".") ++ EmptyString)))
                       ++ (d ++ tail)).
    { destruct Hs as [-> | ->]; [exists EmptyString | exists newline];
        (split; [reflexivity|]); unfold dotted;
        rewrite ?append_assoc', ?append_empty_r; reflexivity. }
    destruct E as (tail & Ht & E).
    rewrite E at 2.
    apply lang_run; [reflexivity | |].
    + cbn [lang].
      exists (a ++ "."), ((b ++ ".") ++ (c ++ ".") ++ EmptyString); repeat split; eauto.
      exists (b ++ "."), ((c ++ ".") ++ EmptyString); repeat split; eauto.
      exists (c ++ "."), EmptyString; repeat split; eauto.
    + rewrite run_cat; apply lang_run; [reflexivity | exact Hd |].
      rewrite run_dollar, Ht; reflexivity.
Qed.

(** X1: [is_ip_address] accepts exactly four octets separated by dots, each
    of one to three digits denoting at most 255 (leading zeros allowed),
    optionally followed by one newline. *)
Theorem ip_address_iff (s : string) :
  is_ip_address s = true <->
  exists a b c d,
    is_octet a = true /\ is_octet b = true /\ is_octet c = true /\ is_octet d = true
    /\ (s = dotted a b c d \/ s = dotted a b c d ++ newline).
Proof. exact (ip_pattern_spec s). Qed.

Lemma decimal_is_octet (n : nat) : (n <= 255)%nat -> is_octet (decimal n) = true.
Proof.
  intros H.
  do 256 (destruct n as [|n]; [reflexivity|]).
  lia.
Qed.

(** X2: every dotted quad of numbers between 0 and 255, written in decimal,
    is accepted as an address and classified as such. *)
Theorem dotted_quad_accepted (a b c d : nat) :
  (a <= 255)%nat -> (b <= 255)%nat -> (c <= 255)%nat -> (d <= 255)%nat ->
  is_ip_address (dotted (decimal a) (decimal b) (decimal c) (decimal d)) = true
  /\ classify (dotted (decimal a) (decimal b) (decimal c) (decimal d)) = NetworkAddress.
Proof.
  intros Ha Hb Hc Hd.
  assert (H : is_ip_address (dotted (decimal a) (decimal b) (decimal c) (decimal d)) = true).
  { apply ip_pattern_spec.
    exists (decimal a), (decimal b), (decimal c), (decimal d).
    repeat split; try (apply decimal_is_octet; assumption).
    left; reflexivity. }
  split; [exact H | unfold classify; rewrite H; reflexivity].
Qed.

Lemma dotted_quad_accepted_witness :
  is_ip_address "192.168.1.100" = true /\ classify "192.168.1.100" = NetworkAddress.
Proof.
  apply (dotted_quad_accepted 192 168 1 100); lia.
Defined.

Lemma len_append (a b : string) : Py.len (a ++ b) = Py.len a + Py.len b.
Proof.
  unfold Py.len; induction a as [|x a IH]; simpl String.length; [lia|].
  rewrite !Nat2Z.inj_succ; simpl in IH |- *; lia.
Qed.

(** X3: a registration code stays one when text without a dot is put after
    or before it: nothing but the dot is excluded, so separators, spaces
    and further letters or digits are all accepted. *)
Theorem registration_code_extends (s t : string) :
  is_registration_code s = true ->
  Py.contains "." t = false ->
  is_registration_code (s ++ t) = true /\ is_registration_code (t ++ s) = true.
Proof.
  unfold is_registration_code, Py.contains; intros H Ht.
  destruct (Z.ltb_spec (Py.len s) 10) as [|Hlen]; [discriminate|].
  destruct (Py.any (Ascii.eqb ".") s) eqn:Hdot; [discriminate|].
  cbv zeta in H; apply andb_true_iff in H as [Hl Hd].
  assert (Ht0 : 0 <= Py.len t) by (unfold Py.len; lia).
  split; cbv zeta; rewrite len_append, !any_append, Hdot, Ht, Hl, Hd.
  - destruct (Z.ltb_spec (Py.len s + Py.len t) 10); [lia | reflexivity].
  - destruct (Z.ltb_spec (Py.len t + Py.len s) 10); [lia|].
    now rewrite !orb_true_r.
Qed.

Lemma registration_code_extends_witness :
  is_registration_code ("R57NX98AAFC62AF2A" ++ " (rev-B)") = true
  /\ is_registration_code (" (rev-B)" ++ "R57NX98AAFC62AF2A") = true.
Proof.
  apply registration_code_extends; reflexivity.
Defined.

(** ** The device fetch *)

Section Fetch_facts.

Variable requests_get : string -> credentials -> http_result.

(** X5: the registration endpoint is requested only after the QR endpoint
    answered with status 200: the trace is the QR request alone, or the QR
    request followed by the registration request. *)
Theorem fetch_requests_in_order (ip username password : string) :
  let auth := HTTPBasicAuth username password in
  let qr_url := "http://" ++ ip ++ "/api/system/qr" in
  let reg_url := "http://" ++ ip ++ "/api/system/registerCode" in
  let trace := snd (fetch_device_data requests_get ip username password) in
  ((exists text json, requests_get qr_url auth = Response 200 text json)
   /\ trace = [Get qr_url auth; Get reg_url auth])
  \/ ((forall text json, requests_get qr_url auth <> Response 200 text json)
      /\ trace = [Get qr_url auth]).
Proof.
  cbv zeta; unfold fetch_device_data.
  destruct (requests_get _ _) as [|s1 t1 j1] eqn:E1.
  { right; split; [discriminate | reflexivity]. }
  destruct (Z.eqb_spec s1 200) as [-> | N1]; simpl negb; cbv iota.
  2:{ right; split; [intros t j [= H _ _]; congruence | reflexivity]. }
  left; split; [eauto|].
  destruct (requests_get ("http://" ++ ip ++ "/api/system/registerCode") _)
    as [|s2 t2 j2]; [reflexivity|].
  destruct (negb (s2 =? 200)); reflexivity.
Qed.

End Fetch_facts.

(** ** Stripping *)

Lemma lstrip_split (s : string) :
  exists l, s = l ++ Py.lstrip s /\ only_spaces l = true
            /\ match Py.lstrip s with
               | String c _ => Py.isspace c = false
               | EmptyString => True
               end.
Proof.
  induction s as [|c s (l & E & Hl & Hhead)]; simpl.
  - exists EmptyString; auto.
  - destruct (Py.isspace c) eqn:Hc.
    + exists (String c l); simpl; rewrite Hc, Hl; repeat split; [now f_equal | exact Hhead].
    + exists EmptyString; simpl; auto.
Qed.

Lemma rstrip_split (s : string) :
  exists r, s = Py.rstrip s ++ r /\ only_spaces r = true.
Proof.
  induction s as [|c s (r & E & Hr)]; simpl.
  - exists EmptyString; auto.
  - destruct (String.eqb_spec (Py.rstrip s) EmptyString) as [E0|N]; simpl.
    + destruct (Py.isspace c) eqn:Hc.
      * exists (String c s); simpl; split; [reflexivity|].
        rewrite Hc; simpl.
        rewrite E0 in E; simpl in E; subst r; exact Hr.
      * exists r; simpl; split; [now f_equal | exact Hr].
    + exists r; simpl; split; [now f_equal | exact Hr].
Qed.

Lemma rstrip_last (s p : string) (c : ascii) :
  Py.rstrip s = p ++ String c EmptyString -> Py.isspace c = false.
Proof.
  revert p; induction s as [|a s IH]; intros p; simpl.
  - destruct p; discriminate.
  - destruct (String.eqb_spec (Py.rstrip s) EmptyString) as [E0|N]; simpl.
    + destruct (Py.isspace a) eqn:Ha.
      * destruct p; discriminate.
      * rewrite E0; destruct p as [|x p]; simpl.
        -- intros [= <-]; exact Ha.
        -- intros [= _ H]; destruct p; discriminate.
    + destruct p as [|x p]; simpl.
      * intros [= _ H]; congruence.
      * intros [= _ H]; eapply IH; exact H.
Qed.

Lemma rstrip_head (s : string) :
  match s with
  | String c _ => Py.isspace c = false
  | EmptyString => True
  end ->
  match Py.rstrip s with
  | String c _ => Py.isspace c = false
  | EmptyString => True
  end.
Proof.
  destruct s as [|a s]; simpl; [auto|].
  intros Ha; rewrite Ha, andb_false_r; exact Ha.
Qed.

(** ** Results, traces and documents of [generate_label] *)

Lemma documents_app (a b : list event) :
  documents (a ++ b) = (documents a ++ documents b)%list.
Proof.
  induction a as [|e a IH]; simpl; [reflexivity|].
  destruct e; simpl; rewrite IH; reflexivity.
Qed.

Lemma requests_app (a b : list event) :
  requests (a ++ b) = (requests a ++ requests b)%list.
Proof.
  induction a as [|e a IH]; simpl; [reflexivity|].
  destruct e; simpl; rewrite IH; reflexivity.
Qed.

(** A saved canvas is the one opened for the output path, with the page
    size asked for, and its last operation is the save. *)
Lemma create_pdf_label_canvas (font_widths : string -> ascii -> N)
    (fs : string -> file_state) (reg_code : string) (qr : option qr_png)
    (output_path : string) (w h : Q) (c : canvas) :
  create_pdf_label font_widths fs reg_code qr output_path w h = inr c ->
  filename c = output_path
  /\ pagesize c = ((w * inch)%Q, (h * inch)%Q)
  /\ exists pre, ops c = (pre ++ [save])%list.
Proof.
  unfold create_pdf_label.
  destruct (draw_label_shape font_widths fs reg_code w h
              (Canvas output_path ((w * inch)%Q, (h * inch)%Q)))
    as (pre & _ & _ & _ & ->).
  destruct (fit_code_text _ _ _ _ _ _) as [e|[[] c1]] eqn:Hfit; [discriminate|].
  intros [= <-].
  apply fit_code_text_issues in Hfit as (os & -> & _).
  rewrite !push_push; cbn [push ops Canvas filename pagesize app].
  repeat split; exists (pre ++ os)%list; now rewrite <- app_assoc.
Qed.

Section Generate_label_facts.

Variable font_widths : string -> ascii -> N.
Variable fs : string -> file_state.
Variable requests_get : string -> credentials -> http_result.

Lemma generate_pdf_cases (reg_code output_path : string) (w h : Q) :
  (exists c,
     create_pdf_label font_widths fs reg_code None output_path w h = inr c
     /\ generate_pdf font_widths fs reg_code output_path w h
        = (Some output_path, [Render reg_code output_path w h; Saved c]))
  \/ (exists e,
        create_pdf_label font_widths fs reg_code None output_path w h = inl e
        /\ generate_pdf font_widths fs reg_code output_path w h
           = (None, [Render reg_code output_path w h])).
Proof.
  unfold generate_pdf.
  destruct (create_pdf_label _ _ _ _ _ _ _) as [e|c]; [right | left]; eauto.
Qed.

Lemma generate_label_outcome (device_input output_path : string) (w h : Q)
    (username password : string) :
  let run :=
    generate_label font_widths fs requests_get device_input output_path w h
      username password in
  (fst run = None /\ documents (snd run) = [])
  \/ (fst run = Some output_path
      /\ exists c pre,
           documents (snd run) = [c]
           /\ filename c = output_path
           /\ pagesize c = ((w * inch)%Q, (h * inch)%Q)
           /\ ops c = (pre ++ [save])%list).
Proof.
  cbv zeta.
  assert (Hpdf : forall reg_code pre_events,
            documents pre_events = [] ->
            let '(result, rendered) :=
              generate_pdf font_widths fs reg_code output_path w h in
            (result = None /\ documents (pre_events ++ rendered) = [])
            \/ (result = Some output_path
                /\ exists c pre,
                     documents (pre_events ++ rendered) = [c]
                     /\ filename c = output_path
                     /\ pagesize c = ((w * inch)%Q, (h * inch)%Q)
                     /\ ops c = (pre ++ [save])%list)).
  { intros reg_code pre_events Hpre.
    destruct (generate_pdf_cases reg_code output_path w h)
      as [(c & Hc & ->) | (e & He & ->)]; rewrite documents_app, Hpre.
    - right; split; [reflexivity|].
      apply create_pdf_label_canvas in Hc as (Hf & Hp & pre & Ho).
      exists c, pre; repeat split; assumption.
    - left; split; reflexivity. }
  unfold generate_label.
  destruct (is_ip_address device_input).
  - pose proof (fetch_device_data_only_gets requests_get device_input username password)
      as [_ Hd].
    destruct (fetch_device_data _ _ _ _) as [[qr_svg reg_code] fetched]; simpl in Hd.
    destruct (negb (Py.truthy qr_svg) || negb (Py.truthy reg_code));
      [left; split; [reflexivity | exact Hd]|].
    destruct reg_code as [reg_code|]; [|left; split; [reflexivity | exact Hd]].
    specialize (Hpdf reg_code fetched Hd).
    destruct (generate_pdf _ _ _ _ _ _) as [result rendered]; exact Hpdf.
  - destruct (is_registration_code device_input); [|left; split; reflexivity].
    specialize (Hpdf device_input [] eq_refl).
    destruct (generate_pdf _ _ _ _ _ _) as [result rendered]; exact Hpdf.
Qed.

Lemma generate_label_offline (device_input output_path : string) (w h : Q)
    (username password : string) :
  is_registration_code device_input = true ->
  generate_label font_widths fs requests_get device_input output_path w h
    username password
  = generate_pdf font_widths fs device_input output_path w h
  /\ requests (snd (generate_label font_widths fs requests_get device_input output_path
                      w h username password)) = [].
Proof.
  intros Hreg.
  assert (Hip : is_ip_address device_input = false).
  { destruct (is_ip_address device_input) eqn:Hip; [|reflexivity].
    apply ip_address_has_dot in Hip.
    apply registration_code_no_dot in Hreg; congruence. }
  assert (E : generate_label font_widths fs requests_get device_input output_path w h
                username password
              = generate_pdf font_widths fs device_input output_path w h).
  { unfold generate_label; rewrite Hip, Hreg; reflexivity. }
  split; [exact E|].
  rewrite E.
  destruct (generate_pdf_cases device_input output_path w h)
    as [(c & _ & ->) | (e & _ & ->)]; reflexivity.
Qed.

(** X8: for a registration code no request is sent: the label is made from
    the input itself. *)
Theorem registration_code_flow_offline (device_input output_path : string) (w h : Q)
    (username password : string) :
  is_registration_code device_input = true ->
  generate_label font_widths fs requests_get device_input output_path w h
    username password
  = generate_pdf font_widths fs device_input output_path w h
  /\ requests (snd (generate_label font_widths fs requests_get device_input output_path
                      w h username password)) = [].
Proof. exact (generate_label_offline device_input output_path w h username password). Qed.

(** X9: in the address flow, once both fetched values are non-empty, the
    outcome is that of rendering the fetched registration code: the
    fetched QR payload plays no further part, and the fetched code is not
    put through [is_registration_code]. *)
Theorem address_flow_renders_fetched_code (device_input output_path : string) (w h : Q)
    (username password qr_svg reg_code : string) (fetched : list event) :
  is_ip_address device_input = true ->
  fetch_device_data requests_get device_input username password
    = ((Some qr_svg, Some reg_code), fetched) ->
  qr_svg <> EmptyString ->
  reg_code <> EmptyString ->
  generate_label font_widths fs requests_get device_input output_path w h
    username password
  = (fst (generate_pdf font_widths fs reg_code output_path w h),
     (fetched ++ snd (generate_pdf font_widths fs reg_code output_path w h))%list)
  /\ documents (snd (generate_label font_widths fs requests_get device_input output_path
                       w h username password))
     = match create_pdf_label font_widths fs reg_code None output_path w h with
       | inr c => [c]
       | inl _ => []
       end.
Proof.
  intros Hip Hfetch Hq Hr.
  pose proof (fetch_device_data_only_gets requests_get device_input username password)
    as [_ Hd].
  rewrite Hfetch in Hd; simpl in Hd.
  assert (E : generate_label font_widths fs requests_get device_input output_path w h
                username password
              = (fst (generate_pdf font_widths fs reg_code output_path w h),
                 (fetched ++ snd (generate_pdf font_widths fs reg_code output_path w h))%list)).
  { unfold generate_label; rewrite Hip, Hfetch; simpl.
    apply String.eqb_neq in Hq, Hr; rewrite Hq, Hr; simpl.
    destruct (generate_pdf _ _ _ _ _ _); reflexivity. }
  split; [exact E|].
  rewrite E; simpl snd; rewrite documents_app, Hd.
  unfold generate_pdf.
  destruct (create_pdf_label _ _ _ _ _ _ _); reflexivity.
Qed.

End Generate_label_facts.

Lemma registration_code_flow_offline_witness :
  generate_label std_fonts no_logo blank_device sample_code "device_label.pdf"
    default_width default_height "admin" "123456"
  = generate_pdf std_fonts no_logo sample_code "device_label.pdf"
      default_width default_height
  /\ requests (snd (generate_label std_fonts no_logo blank_device sample_code
                      "device_label.pdf" default_width default_height "admin" "123456"))
     = [].
Proof.
  apply registration_code_flow_offline; reflexivity.
Defined.

Lemma address_flow_renders_fetched_code_witness :
  documents (snd (generate_label std_fonts no_logo plain_text_device "192.168.1.100"
                    "device_label.pdf" default_width default_height "admin" "123456"))
  = match create_pdf_label std_fonts no_logo sample_code None "device_label.pdf"
            default_width default_height with
    | inr c => [c]
    | inl _ => []
    end.
Proof.
  refine (proj2 (address_flow_renders_fetched_code std_fonts no_logo plain_text_device
                   "192.168.1.100" "device_label.pdf" default_width default_height
                   "admin" "123456" "  R57NX98AAFC62AF2A " sample_code _ _ _ _ _)).
  - reflexivity.
  - reflexivity.
  - discriminate.
  - discriminate.
Defined.

(** ** The page around the code text *)



(** ** More on the split point and the fitting step *)

Lemma slice_lengths (s : string) (k : Z) :
  0 <= k <= Py.len s ->
  Py.len (Py.slice_to s k) = k /\ Py.len (Py.slice_from s k) = Py.len s - k.
Proof.
  intros Hk.
  assert (Ht : Py.len (Py.slice_to s k) = k).
  { unfold Py.slice_to, Py.clamp.
    destruct (Z.ltb_spec k 0) as [Hneg|_]; [lia|].
    rewrite Z.min_l by lia; unfold Py.len in *; rewrite take_length; lia. }
  split; [exact Ht|].
  pose proof (f_equal Py.len (slice_concat s k)) as E.
  rewrite len_append, Ht in E; lia.
Qed.

(** X10: the split point stays within two positions of the midpoint and
    inside the code; for a code of two characters or more both lines are
    non-empty, and their lengths are the split point and the rest. *)
Theorem split_point_bounds (reg_code : string) :
  let mid := Py.len reg_code / 2 in
  let m := split_point reg_code in
  mid - 2 <= m <= mid + 2
  /\ 0 <= m <= Py.len reg_code
  /\ (2 <= Py.len reg_code -> 0 < m < Py.len reg_code)
  /\ Py.len (Py.slice_to reg_code m) = m
  /\ Py.len (Py.slice_from reg_code m) = Py.len reg_code - m.
Proof.
  intros mid m.
  assert (Hlen : 0 <= Py.len reg_code) by (unfold Py.len; lia).
  assert (Hmid : 0 <= mid <= Py.len reg_code).
  { unfold mid; split; [apply Z.div_pos; lia|].
    apply Z.div_le_upper_bound; lia. }
  assert (Hmid2 : 2 <= Py.len reg_code -> 0 < mid < Py.len reg_code).
  { intros H2; unfold mid; split.
    - apply Z.div_str_pos; lia.
    - apply Z.div_lt_upper_bound; lia. }
  assert (Hm : m = mid
               \/ (mid - 2 <= m <= mid + 2 /\ logical_point reg_code m = true)).
  { destruct (split_point_least reg_code) as [Hleast Hnone]; fold mid m in Hleast, Hnone.
    destruct (logical_point reg_code (mid - 2)) eqn:E0;
      [right; destruct (Hleast (mid - 2) ltac:(lia) E0); split; [lia | assumption]|].
    destruct (logical_point reg_code (mid - 1)) eqn:E1;
      [right; destruct (Hleast (mid - 1) ltac:(lia) E1); split; [lia | assumption]|].
    destruct (logical_point reg_code mid) eqn:E2;
      [right; destruct (Hleast mid ltac:(lia) E2); split; [lia | assumption]|].
    destruct (logical_point reg_code (mid + 1)) eqn:E3;
      [right; destruct (Hleast (mid + 1) ltac:(lia) E3); split; [lia | assumption]|].
    destruct (logical_point reg_code (mid + 2)) eqn:E4;
      [right; destruct (Hleast (mid + 2) ltac:(lia) E4); split; [lia | assumption]|].
    left; apply Hnone; intros i Hi.
    assert (Hc : i = mid - 2 \/ i = mid - 1 \/ i = mid \/ i = mid + 1 \/ i = mid + 2)
      by lia.
    destruct Hc as [->|[->|[->|[->| ->]]]]; assumption. }
  assert (Hin : 0 <= m <= Py.len reg_code
                /\ (2 <= Py.len reg_code -> 0 < m < Py.len reg_code)).
  { destruct Hm as [-> | [_ Hp]]; [split; assumption|].
    apply logical_point_spec in Hp as [Hp _]; split; lia. }
  destruct Hin as [Hin Hin2].
  destruct (slice_lengths reg_code m Hin) as [H1 H2].
  repeat split; try lia; try (apply Hin2; assumption).
  all: destruct Hm as [-> | [Hw _]]; lia.
Qed.

Section Fit_facts.

Variable font_widths : string -> ascii -> N.


End Fit_facts.

Section Fit_more.

Variable font_widths : string -> ascii -> N.


(** X12: text printed in full always fits.  Unless the fitting step falls
    back to truncation, the lines it draws make up the whole code and
    none is wider than the available text width at the font size selected
    last. *)
Theorem full_text_fits (reg_code : string) (w h : Q) (os : list op) :
  code_text_ops font_widths reg_code w h = inr os ->
  (exists k,
     os = [setFont "Helvetica-Bold" 7; setFont "Helvetica-Bold" 6;
           drawString (text_start_x_of h) (code_y_of h)
             (Py.slice_to reg_code k ++ "...")])
  \/ (String.concat EmptyString (drawn_strings os) = reg_code
      /\ Forall (fun line =>
                   (stringWidth font_widths line "Helvetica-Bold" (last_font_size os)
                    <= available_text_width_of w h)%Q)
           (drawn_strings os)).
Proof.
  unfold code_text_ops; rewrite fit_code_text_unfold; cbv beta zeta.
  set (avail := available_text_width_of w h).
  destruct (Qle_bool (stringWidth font_widths reg_code "Helvetica-Bold" 7) avail) eqn:H7.
  { intros [= <-]; right; cbn; split; [reflexivity|].
    constructor; [now apply Qle_bool_iff | constructor]. }
  destruct (Qle_bool (stringWidth font_widths reg_code "Helvetica-Bold" 6) avail) eqn:H6.
  { intros [= <-]; right; cbn; split; [reflexivity|].
    constructor; [now apply Qle_bool_iff | constructor]. }
  destruct (Qle_bool (stringWidth font_widths
                        (Py.slice_to reg_code (split_point reg_code)) "Helvetica-Bold" 6)
              avail
            && Qle_bool (stringWidth font_widths
                           (Py.slice_from reg_code (split_point reg_code))
                           "Helvetica-Bold" 6) avail) eqn:H2.
  { intros [= <-]; right; cbn [drawn_strings String.concat last_font_size ops push Canvas app].
    apply andb_true_iff in H2 as [Ha Hb].
    split; [apply slice_concat|].
    constructor; [now apply Qle_bool_iff|].
    constructor; [now apply Qle_bool_iff | constructor]. }
  destruct (Qeq_bool _ 0); [discriminate|].
  intros [= <-]; left; eexists; reflexivity.
Qed.

End Fit_more.

Lemma full_text_fits_witness :
  (exists k,
     [setFont "Helvetica-Bold" 7; setFont "Helvetica-Bold" 6;
      drawString (text_start_x_of 1) (code_y_of 1 + (1 # 20) * inch)%Q "A1------";
      drawString (text_start_x_of 1) (code_y_of 1 - (1 # 20) * inch)%Q "------------"]
     = [setFont "Helvetica-Bold" 7; setFont "Helvetica-Bold" 6;
        drawString (text_start_x_of 1) (code_y_of 1) (Py.slice_to dashed k ++ "...")])
  \/ (String.concat EmptyString ["A1------"; "------------"] = dashed
      /\ Forall (fun line =>
                   (stringWidth std_fonts line "Helvetica-Bold" 6
                    <= available_text_width_of (15 # 10) 1)%Q)
           ["A1------"; "------------"]).
Proof.
  apply (full_text_fits std_fonts dashed (15 # 10) 1
           [setFont "Helvetica-Bold" 7; setFont "Helvetica-Bold" 6;
            drawString (text_start_x_of 1) (code_y_of 1 + (1 # 20) * inch)%Q "A1------";
            drawString (text_start_x_of 1) (code_y_of 1 - (1 # 20) * inch)%Q
              "------------"]).
  vm_compute; reflexivity.
Defined.

(** ** Page geometry *)










Section Page_facts.

Variable font_widths : string -> ascii -> N.




End Page_facts.


(** ** The callers: command line and form *)

Lemma append_nonempty_r (a b : string) : b <> EmptyString -> a ++ b <> EmptyString.
Proof. destruct a; simpl; [auto | discriminate]. Qed.

Lemma os_path_join_nonempty (a b : string) :
  b <> EmptyString -> os_path_join a b <> EmptyString.
Proof.
  intros Hb; unfold os_path_join.
  destruct (String.prefix "/" b); [exact Hb|].
  destruct (String.eqb a EmptyString); [now apply append_nonempty_r|].
  destruct (String.get _ a) as [[[] [] [] [] [] [] [] []]|];
    try (now apply append_nonempty_r);
    apply append_nonempty_r; discriminate.
Qed.

Section Caller_facts.

Variable font_widths : string -> ascii -> N.
Variable fs : string -> file_state.
Variable requests_get : string -> credentials -> http_result.

(** X17: the exit status of [main] tells whether a label was written.  For
    a non-empty output path, status 0 comes with exactly one document,
    written to that path with the page size asked for, and status 1 with
    none. *)
Theorem main_exit_status (args : namespace) :
  arg_output args <> EmptyString ->
  let status := fst (main font_widths fs requests_get args) in
  let trace := snd (main font_widths fs requests_get args) in
  (status = 0
   /\ exists c, documents trace = [c]
                /\ filename c = arg_output args
                /\ pagesize c = ((arg_width args * inch)%Q, (arg_height args * inch)%Q))
  \/ (status = 1 /\ documents trace = []).
Proof.
  intros Hout; cbv zeta; unfold main.
  pose proof (generate_label_outcome font_widths fs requests_get (arg_input args)
                (arg_output args) (arg_width args) (arg_height args)
                (arg_username args) (arg_password args)) as H; cbv zeta in H.
  destruct (generate_label _ _ _ _ _ _ _ _ _) as [result trace]; simpl in H.
  destruct H as [[-> Hd] | [-> (c & pre & Hd & Hf & Hp & _)]]; simpl.
  - right; split; [reflexivity | exact Hd].
  - apply String.eqb_neq in Hout; rewrite Hout; simpl.
    left; split; [reflexivity|]; exists c; repeat split; assumption.
Qed.

(** X18: in registration-code mode the form never contacts a device: it
    rejects whatever [is_registration_code] rejects, an address included,
    and renders the rest without any request. *)
Theorem form_registration_mode_offline (tmpdir device_input typed_username
    typed_password : string) (width height : Q) (typed_name : string) :
  requests (snd (on_submit font_widths fs requests_get tmpdir Registration_Code
                   device_input typed_username typed_password width height typed_name))
  = [].
Proof.
  unfold on_submit, form_credentials, method_eqb.
  destruct (String.eqb device_input EmptyString); [reflexivity|].
  cbn [andb].
  destruct (is_registration_code device_input) eqn:Hreg; [|reflexivity].
  cbn [negb]; cbv zeta.
  pose proof (generate_label_offline font_widths fs requests_get device_input
                (os_path_join tmpdir (typed_name ++ ".pdf")) width height
                "admin" "123456" Hreg) as [_ Hoff].
  destruct (generate_label _ _ _ _ _ _ _ _ _) as [result trace]; simpl in Hoff.
  destruct (Py.truthy result); [|exact Hoff].
  destruct (read_file _ trace); exact Hoff.
Qed.

End Caller_facts.

Lemma main_exit_status_witness :
  (fst (main std_fonts no_logo blank_device sample_args) = 0
   /\ exists c, documents (snd (main std_fonts no_logo blank_device sample_args)) = [c]
                /\ filename c = arg_output sample_args
                /\ pagesize c = ((arg_width sample_args * inch)%Q,
                                 (arg_height sample_args * inch)%Q))
  \/ (fst (main std_fonts no_logo blank_device sample_args) = 1
      /\ documents (snd (main std_fonts no_logo blank_device sample_args)) = []).
Proof.
  apply (main_exit_status std_fonts no_logo blank_device sample_args).
  discriminate.
Defined.

(** * Properties of the second embedding

    From here on the names are those of [Binary64]. *)

Import PrimFloat.
Import Binary64.
#[local] Set Warnings "-inexact-float".

(** ** Canvas bookkeeping *)

Lemma push_twice (c : canvas) (a b : list op) : push (push c a) b = push c (a ++ b).
Proof. unfold push; simpl; now rewrite <- app_assoc. Qed.

Lemma drawn_strings_concat (a b : list op) :
  drawn_strings (a ++ b) = (drawn_strings a ++ drawn_strings b)%list.
Proof.
  induction a as [|o a IH]; simpl; [reflexivity|].
  destruct o; simpl; rewrite IH; reflexivity.
Qed.

Lemma drawn_qr_concat (a b : list op) :
  drawn_qr (a ++ b) = (drawn_qr a ++ drawn_qr b)%list.
Proof.
  induction a as [|o a IH]; simpl; [reflexivity|].
  destruct o as [| | |[]| | | |]; simpl; rewrite IH; reflexivity.
Qed.


(** [int] raises [ValueError] on the NaN, [OverflowError] on an infinity,
    and nothing else. *)
Lemma int_raises (x : float) (e : exn) :
  int x = inl e <->
  (FloatOps.Prim2SF x = SpecFloat.S754_nan /\ e = ValueError)
  \/ ((exists s, FloatOps.Prim2SF x = SpecFloat.S754_infinity s) /\ e = OverflowError).
Proof.
  unfold int; destruct (FloatOps.Prim2SF x) as [s|s| |s m ex]; split.
  - discriminate.
  - intros [[H _]|[[s' H] _]]; discriminate H.
  - intros H; injection H as <-; right; split; [exists s|]; reflexivity.
  - intros [[H _]|[_ ->]]; [discriminate H | reflexivity].
  - intros H; injection H as <-; left; split; reflexivity.
  - intros [[_ ->]|[[s' H] _]]; [reflexivity | discriminate H].
  - discriminate.
  - intros [[H _]|[[s' H] _]]; discriminate H.
Qed.


Section Renderer_facts.

Variable stringWidth : string -> string -> Z -> float.
Variable qr_accepts : string -> bool.
Variable fs : string -> file_state.

(** The fitting step with the canvas threading computed away. *)
Lemma fit_code_text_cases (reg_code : string) (x y avail : float) (c : canvas) :
  fit_code_text stringWidth reg_code x y avail c =
  let width n s := stringWidth s "Helvetica-Bold" n in
  let m := split_point reg_code in
  if (width 7%Z reg_code <=? avail)%float then
    inr (tt, push c [setFont "Helvetica-Bold" 7; drawString x y reg_code])
  else if (width 6%Z reg_code <=? avail)%float then
    inr (tt, push c [setFont "Helvetica-Bold" 7; setFont "Helvetica-Bold" 6;
                     drawString x y reg_code])
  else if (width 6%Z (Py.slice_to reg_code m) <=? avail)%float
          && (width 6%Z (Py.slice_from reg_code m) <=? avail)%float then
    inr (tt, push c [setFont "Helvetica-Bold" 7; setFont "Helvetica-Bold" 6;
                     drawString x (y + 0.05 * inch)%float (Py.slice_to reg_code m);
                     drawString x (y - 0.05 * inch)%float (Py.slice_from reg_code m)])
  else
    match max_chars_of reg_code avail (width 6%Z reg_code) with
    | inl e => inl e
    | inr max_chars =>
        inr (tt, push c [setFont "Helvetica-Bold" 7; setFont "Helvetica-Bold" 6;
                         drawString x y (Py.slice_to reg_code max_chars ++ "...")])
    end.
Proof.
  unfold fit_code_text, bind, emit, raise; cbv zeta.
  destruct (_ <=? avail)%float; [now rewrite push_twice|].
  destruct (_ <=? avail)%float; [now rewrite !push_twice|].
  destruct (_ && _); [now rewrite !push_twice|].
  destruct (max_chars_of _ _ _); [reflexivity|].
  now rewrite !push_twice.
Qed.

(** [code_text_ops], by cases. *)
Lemma code_text_ops_cases (reg_code : string) (w h : float) :
  code_text_ops stringWidth reg_code w h =
  let x := text_start_x_of h in
  let y := code_y_of h in
  let avail := available_text_width_of w h in
  let width n s := stringWidth s "Helvetica-Bold" n in
  let m := split_point reg_code in
  if (width 7%Z reg_code <=? avail)%float then
    inr [setFont "Helvetica-Bold" 7; drawString x y reg_code]
  else if (width 6%Z reg_code <=? avail)%float then
    inr [setFont "Helvetica-Bold" 7; setFont "Helvetica-Bold" 6; drawString x y reg_code]
  else if (width 6%Z (Py.slice_to reg_code m) <=? avail)%float
          && (width 6%Z (Py.slice_from reg_code m) <=? avail)%float then
    inr [setFont "Helvetica-Bold" 7; setFont "Helvetica-Bold" 6;
         drawString x (y + 0.05 * inch)%float (Py.slice_to reg_code m);
         drawString x (y - 0.05 * inch)%float (Py.slice_from reg_code m)]
  else
    match max_chars_of reg_code avail (width 6%Z reg_code) with
    | inl e => inl e
    | inr max_chars =>
        inr [setFont "Helvetica-Bold" 7; setFont "Helvetica-Bold" 6;
             drawString x y (Py.slice_to reg_code max_chars ++ "...")]
    end.
Proof.
  unfold code_text_ops; rewrite fit_code_text_cases; cbv beta zeta.
  destruct (_ <=? _)%float; [reflexivity|].
  destruct (_ <=? _)%float; [reflexivity|].
  destruct (_ && _); [reflexivity|].
  destruct (max_chars_of _ _ _); reflexivity.
Qed.

(** The fitting step issues the operations of [code_text_ops], or raises
    its exception, on every canvas. *)
Lemma fit_code_text_on_canvas (reg_code : string) (w h : float) (c : canvas) :
  fit_code_text stringWidth reg_code (text_start_x_of h) (code_y_of h)
    (available_text_width_of w h) c =
  match code_text_ops stringWidth reg_code w h with
  | inl e => inl e
  | inr os => inr (tt, push c os)
  end.
Proof.
  rewrite code_text_ops_cases, fit_code_text_cases; cbv beta zeta.
  destruct (_ <=? _)%float; [reflexivity|].
  destruct (_ <=? _)%float; [reflexivity|].
  destruct (_ && _); [reflexivity|].
  destruct (max_chars_of _ _ _); reflexivity.
Qed.

(** [create_pdf_label], operation by operation: the encoder's refusal
    before any image or text; else the frame, the QR image, the logo when
    it is readable, the caption, the fitted code text or its exception,
    the save. *)
Lemma create_pdf_label_operations (reg_code : string) (qr : option qr_png)
    (output_path : string) (w h : float) :
  create_pdf_label stringWidth qr_accepts fs reg_code qr output_path w h =
  let width_pts := (w * inch)%float in
  let height_pts := (h * inch)%float in
  let margin := (0.1 * inch)%float in
  let qr_size := min (height_pts - 2 * margin)%float (0.75 * inch)%float in
  let logo :=
    match fs "logo.jpg" with
    | Readable =>
        [drawImage (ImageReader_file "logo.jpg")
           (width_pts - margin - 0.6 * inch)%float
           (height_pts - margin - 0.25 * inch)%float
           (0.6 * inch)%float (0.25 * inch)%float true]
    | _ => []
    end in
  match generate_qr_code qr_accepts reg_code 0.8%float with
  | inl e => inl e
  | inr qr_buffer =>
      match code_text_ops stringWidth reg_code w h with
      | inl e => inl e
      | inr os =>
          inr {| filename := output_path;
                 pagesize := (width_pts, height_pts);
                 ops := ([setStrokeColor lightgrey; setLineWidth 0.5%float;
                          rect 2%float 2%float (width_pts - 4)%float (height_pts - 4)%float;
                          drawImage (ImageReader_buffer qr_buffer)
                            margin ((height_pts - qr_size) / 2)%float qr_size qr_size false]
                         ++ logo
                         ++ [setFont "Helvetica-Bold" 9; setFillColor black;
                             drawString (text_start_x_of h) (height_pts * 0.4)%float
                               "Registration Code"]
                         ++ os ++ [save])%list |}
      end
  end.
Proof.
  unfold create_pdf_label, draw_label, bind, emit, ret, raise; cbv zeta.
  destruct (generate_qr_code qr_accepts reg_code 0.8%float) as [e|buf]; [reflexivity|].
  destruct (fs "logo.jpg"); rewrite ?push_twice;
    (match goal with
     | |- context [fit_code_text stringWidth reg_code ?x ?y ?a ?c] =>
         change (fit_code_text stringWidth reg_code x y a c)
           with (fit_code_text stringWidth reg_code (text_start_x_of h) (code_y_of h)
                   (available_text_width_of w h) c);
         rewrite (fit_code_text_on_canvas reg_code w h c)
     end);
    destruct (code_text_ops stringWidth reg_code w h) as [e|os]; try reflexivity;
    unfold push, Canvas; cbn [filename pagesize ops app];
    rewrite <- ?app_assoc; reflexivity.
Qed.

(** A label that is saved: the operations before the code text draw the
    caption and the QR image of the code and select font size 9 only;
    the code text follows, and the save ends the page. *)
Lemma create_pdf_label_saved_shape (reg_code : string) (qr : option qr_png)
    (output_path : string) (w h : float) (os : list op) :
  qr_accepts reg_code = true ->
  code_text_ops stringWidth reg_code w h = inr os ->
  exists c pre,
    create_pdf_label stringWidth qr_accepts fs reg_code qr output_path w h = inr c
    /\ filename c = output_path
    /\ pagesize c = ((w * inch)%float, (h * inch)%float)
    /\ ops c = (pre ++ os ++ [save])%list
    /\ drawn_strings pre = ["Registration Code"]
    /\ (forall name size, In (setFont name size) pre -> size = 9)
    /\ ~ In save pre.
Proof.
  intros Hqr Hos; rewrite create_pdf_label_operations; cbv zeta.
  unfold generate_qr_code; rewrite Hqr, Hos.
  eexists; eexists; split; [reflexivity|]; cbn [filename pagesize ops].
  split; [reflexivity|]; split; [reflexivity|].
  split; [rewrite !app_assoc; reflexivity|].
  destruct (fs "logo.jpg"); cbn [app drawn_strings]; (split; [reflexivity|]); split;
    try (intros name size Hin; cbn [In] in Hin;
         repeat (destruct Hin as [Hin|Hin];
                 [try discriminate Hin; injection Hin as _ <-; reflexivity|]);
         destruct Hin);
    intros Hin; cbn [In] in Hin;
    repeat (destruct Hin as [Hin|Hin]; [discriminate Hin|]); exact Hin.
Qed.

(** The encoder's refusal is the exception of [create_pdf_label]. *)
Lemma create_pdf_label_refused (reg_code : string) (qr : option qr_png)
    (output_path : string) (w h : float) :
  qr_accepts reg_code = false ->
  create_pdf_label stringWidth qr_accepts fs reg_code qr output_path w h
  = inl DataOverflowError.
Proof.
  intros Hqr; rewrite create_pdf_label_operations; cbv zeta.
  unfold generate_qr_code; rewrite Hqr; reflexivity.
Qed.

End Renderer_facts.

(** ** The fitting step *)

(** C7: a code whose measured width at size 7 is at most the available
    text width is drawn once, in full, at size 7, and no fallback runs.
    The fitting step issues the selection of size 7 and one drawing of
    the full code at the text column, nothing else.  When the QR encoder
    accepts the code the label is saved: its operations end with these
    two and the save, only the caption is drawn as text before them, and
    size 6 is never selected.  When the encoder refuses the code its
    exception leaves the renderer before the fitting step. *)
Theorem size_7_draws_full_code (stringWidth : string -> string -> Z -> float)
    (qr_accepts : string -> bool) (fs : string -> file_state)
    (reg_code : string) (qr : option qr_png) (output_path : string) (w h : float) :
  (stringWidth reg_code "Helvetica-Bold" 7%Z <=? available_text_width_of w h)%float = true ->
  code_text_ops stringWidth reg_code w h =
    inr [setFont "Helvetica-Bold" 7; drawString (text_start_x_of h) (code_y_of h) reg_code]
  /\ (qr_accepts reg_code = true ->
      exists c pre,
        create_pdf_label stringWidth qr_accepts fs reg_code qr output_path w h = inr c
        /\ ops c = (pre ++ [setFont "Helvetica-Bold" 7;
                            drawString (text_start_x_of h) (code_y_of h) reg_code;
                            save])%list
        /\ drawn_strings pre = ["Registration Code"]
        /\ drawn_strings (ops c) = ["Registration Code"; reg_code]
        /\ ~ In (setFont "Helvetica-Bold" 6) (ops c))
  /\ (qr_accepts reg_code = false ->
      create_pdf_label stringWidth qr_accepts fs reg_code qr output_path w h
      = inl DataOverflowError).
Proof.
  intros Hfit.
  assert (Hos : code_text_ops stringWidth reg_code w h =
                inr [setFont "Helvetica-Bold" 7;
                     drawString (text_start_x_of h) (code_y_of h) reg_code]).
  { rewrite code_text_ops_cases; cbv beta zeta; rewrite Hfit; reflexivity. }
  split; [exact Hos|]; split; [|apply create_pdf_label_refused].
  intros Hqr.
  destruct (create_pdf_label_saved_shape stringWidth qr_accepts fs reg_code qr output_path
              w h _ Hqr Hos) as (c & pre & Hc & _ & _ & Hops & Hs & Hfonts & _).
  exists c, pre; split; [exact Hc|]; split; [exact Hops|]; split; [exact Hs|].
  split.
  - rewrite Hops, drawn_strings_concat, Hs; reflexivity.
  - rewrite Hops; intros Hin; apply in_app_or in Hin as [Hin|Hin].
    + apply Hfonts in Hin; discriminate Hin.
    + cbn [In app] in Hin.
      repeat (destruct Hin as [Hin|Hin]; [discriminate Hin|]); exact Hin.
Qed.

Lemma size_7_draws_full_code_witness :
  code_text_ops helvetica_measure sample_code 2.625 1 =
    inr [setFont "Helvetica-Bold" 7;
         drawString (text_start_x_of 1) (code_y_of 1) sample_code]
  /\ exists c pre,
       create_pdf_label helvetica_measure symbol_capacity no_logo sample_code None
         "device_label.pdf" 2.625 1 = inr c
       /\ ops c = (pre ++ [setFont "Helvetica-Bold" 7;
                           drawString (text_start_x_of 1) (code_y_of 1) sample_code;
                           save])%list
       /\ drawn_strings pre = ["Registration Code"]
       /\ drawn_strings (ops c) = ["Registration Code"; sample_code]
       /\ ~ In (setFont "Helvetica-Bold" 6) (ops c).
Proof.
  destruct (size_7_draws_full_code helvetica_measure symbol_capacity no_logo sample_code
              None "device_label.pdf" 2.625 1) as (Hos & Hsaved & _);
    [vm_compute; reflexivity|].
  split; [exact Hos|]; apply Hsaved; vm_compute; reflexivity.
Defined.




(** C1: the truncation branch draws a line wider than the text column
    and the page.  On the default label, 2.625 in by 1 in, the code of thirty
    [W] and thirty [1] fits neither at size 7 nor at size 6 nor in two
    halves; the budget is 21 characters, and the line drawn, 21 [W] and
    the ellipsis, measures more than the available width and ends beyond
    the right edge of the page. *)
Lemma truncated_line_overflows :
  exists c pre line,
    create_pdf_label helvetica_measure symbol_capacity no_logo wide_then_narrow None
      "device_label.pdf" 2.625 1 = inr c
    /\ ops c = (pre ++ [setFont "Helvetica-Bold" 7; setFont "Helvetica-Bold" 6;
                        drawString (text_start_x_of 1) (code_y_of 1) line; save])%list
    /\ drawn_strings pre = ["Registration Code"]
    /\ max_chars_of wide_then_narrow (available_text_width_of 2.625 1)
         (helvetica_measure wide_then_narrow "Helvetica-Bold" 6) = inr 21
    /\ line = repeat_char "W" 21 ++ "..."
    /\ (helvetica_measure line "Helvetica-Bold" 6%Z <=? available_text_width_of 2.625 1)%float
       = false
    /\ (2.625 * inch <? text_start_x_of 1 + helvetica_measure line "Helvetica-Bold" 6%Z)%float
       = true.
Proof.
  eexists; eexists; eexists; split; [vm_compute; reflexivity|].
  cbn [ops]; split.
  - instantiate (1 := (repeat_char "W" 21 ++ "...")%string).
    instantiate (1 := [setStrokeColor lightgrey; setLineWidth 0.5%float;
                       rect 2%float 2%float (2.625 * inch - 4)%float (1 * inch - 4)%float;
                       drawImage (ImageReader_buffer
                                    {| qr_version := 1; qr_error_correction := ERROR_CORRECT_L;
                                       qr_box_size := 10; qr_border := 1;
                                       qr_data := wide_then_narrow;
                                       qr_fill_color := "black"; qr_back_color := "white" |})
                         (0.1 * inch)%float
                         ((1 * inch - min (1 * inch - 2 * (0.1 * inch)) (0.75 * inch)) / 2)%float
                         (min (1 * inch - 2 * (0.1 * inch)) (0.75 * inch))%float
                         (min (1 * inch - 2 * (0.1 * inch)) (0.75 * inch))%float false;
                       setFont "Helvetica-Bold" 9; setFillColor black;
                       drawString (text_start_x_of 1) (1 * inch * 0.4)%float
                         "Registration Code"]).
    vm_compute; reflexivity.
  - repeat split; vm_compute; reflexivity.
Qed.

(** X11: [create_pdf_label] raises in these cases and no other: the QR
    encoder refuses the code ([DataOverflowError], before any text); or
    the code fits neither at size 7 nor at size 6 nor in two halves, and
    then the measured width at size 6 is zero ([ZeroDivisionError]), or
    the budget quotient is the NaN ([ValueError]) or an infinity
    ([OverflowError]).  In every other case the label is saved. *)
Theorem create_pdf_label_raises_iff (stringWidth : string -> string -> Z -> float)
    (qr_accepts : string -> bool) (fs : string -> file_state)
    (reg_code : string) (qr : option qr_png) (output_path : string) (w h : float)
    (e : exn) :
  let avail := available_text_width_of w h in
  let width n s := stringWidth s "Helvetica-Bold" n in
  let line1 := Py.slice_to reg_code (split_point reg_code) in
  let line2 := Py.slice_from reg_code (split_point reg_code) in
  let quotient := (float_of_int (Py.len reg_code) * avail / width 6%Z reg_code)%float in
  create_pdf_label stringWidth qr_accepts fs reg_code qr output_path w h = inl e <->
  (qr_accepts reg_code = false /\ e = DataOverflowError)
  \/ (qr_accepts reg_code = true
      /\ (width 7%Z reg_code <=? avail)%float = false
      /\ (width 6%Z reg_code <=? avail)%float = false
      /\ (width 6%Z line1 <=? avail)%float && (width 6%Z line2 <=? avail)%float = false
      /\ (((width 6%Z reg_code =? 0)%float = true /\ e = ZeroDivisionError)
          \/ ((width 6%Z reg_code =? 0)%float = false
              /\ ((FloatOps.Prim2SF quotient = SpecFloat.S754_nan /\ e = ValueError)
                  \/ ((exists s, FloatOps.Prim2SF quotient = SpecFloat.S754_infinity s)
                      /\ e = OverflowError))))).
Proof.
  cbv zeta; rewrite create_pdf_label_operations, code_text_ops_cases; cbv beta zeta.
  unfold generate_qr_code, max_chars_of.
  destruct (qr_accepts reg_code).
  2:{ split.
      - intros H; injection H as <-; left; split; reflexivity.
      - intros [[_ ->]|[H _]]; [reflexivity | discriminate H]. }
  destruct (stringWidth reg_code "Helvetica-Bold" 7%Z <=? available_text_width_of w h)%float.
  { split; [discriminate|]; intros [[H _]|(_ & H & _)]; discriminate H. }
  destruct (stringWidth reg_code "Helvetica-Bold" 6%Z <=? available_text_width_of w h)%float.
  { split; [discriminate|]; intros [[H _]|(_ & _ & H & _)]; discriminate H. }
  destruct ((stringWidth (Py.slice_to reg_code (split_point reg_code)) "Helvetica-Bold" 6%Z
             <=? available_text_width_of w h)%float
            && (stringWidth (Py.slice_from reg_code (split_point reg_code))
                  "Helvetica-Bold" 6%Z <=? available_text_width_of w h)%float).
  { split; [discriminate|]; intros [[H _]|(_ & _ & _ & H & _)]; discriminate H. }
  destruct (stringWidth reg_code "Helvetica-Bold" 6%Z =? 0)%float.
  { split.
    - intros H; injection H as <-; right; repeat split; left; split; reflexivity.
    - intros [[H _]|(_ & _ & _ & _ & [[_ ->]|[H _]])];
        [discriminate H | reflexivity | discriminate H]. }
  pose proof (int_raises (float_of_int (Py.len reg_code) * available_text_width_of w h
                          / stringWidth reg_code "Helvetica-Bold" 6%Z)%float e) as Hint.
  destruct (int _) as [e'|n].
  - split.
    + intros H; injection H as ->; right; repeat split; right; split; [reflexivity|].
      apply Hint; reflexivity.
    + intros [[H _]|(_ & _ & _ & _ & [[H _]|[_ H]])]; try discriminate H.
      apply Hint in H; injection H as ->; reflexivity.
  - split; [discriminate|].
    intros [[H _]|(_ & _ & _ & _ & [[H _]|[_ H]])]; try discriminate H.
    apply Hint in H; discriminate H.
Qed.

(** X15: the logo changes nothing but itself.  Whatever the state of
    [logo.jpg], the label is saved or fails as without a logo, for the
    same file and page; a missing and an unreadable logo give exactly the
    label made without one; a readable logo inserts one operation, after
    the QR image and before any text: the image of [logo.jpg], asked to
    fit, aspect ratio kept, a box of 0.6 in by 0.25 in at
    (width - margin - 0.6 in, height - margin - 0.25 in). *)
Theorem logo_adds_one_image (stringWidth : string -> string -> Z -> float)
    (qr_accepts : string -> bool) (fs : string -> file_state)
    (reg_code : string) (qr : option qr_png) (output_path : string) (w h : float) :
  let logo_image :=
    drawImage (ImageReader_file "logo.jpg")
      (w * inch - 0.1 * inch - 0.6 * inch)%float
      (h * inch - 0.1 * inch - 0.25 * inch)%float
      (0.6 * inch)%float (0.25 * inch)%float true in
  match create_pdf_label stringWidth qr_accepts fs reg_code qr output_path w h,
        create_pdf_label stringWidth qr_accepts no_logo reg_code qr output_path w h with
  | inl e, inl e0 => e = e0
  | inr c, inr c0 =>
      filename c = filename c0 /\ pagesize c = pagesize c0
      /\ match fs "logo.jpg" with
         | Readable =>
             exists before after,
               ops c0 = (before ++ after)%list
               /\ ops c = (before ++ logo_image :: after)%list
               /\ (exists qr_image, drawn_qr before = [qr_image])
               /\ drawn_strings before = []
         | Missing | Unreadable => ops c = ops c0
         end
  | _, _ => False
  end.
Proof.
  cbv zeta; rewrite !create_pdf_label_operations; cbv zeta.
  destruct (generate_qr_code qr_accepts reg_code 0.8%float) as [e|buf]; [reflexivity|].
  destruct (code_text_ops stringWidth reg_code w h) as [e|os]; [reflexivity|].
  cbn [filename pagesize ops]; split; [reflexivity|]; split; [reflexivity|].
  unfold no_logo; destruct (fs "logo.jpg"); try reflexivity.
  eexists [_; _; _; _]; eexists; repeat split.
  eexists; reflexivity.
Qed.

(** ** The device fetch *)

Lemma dict_get_absent (d : list (string * json)) (key : string) (default : json) :
  (forall k v, In (k, v) d -> k <> key) -> dict_get d key default = default.
Proof.
  induction d as [|[k v] d IH]; simpl; intros H; [reflexivity|].
  destruct (String.eqb_spec k key) as [E|_].
  - exfalso; apply (H k v); [now left | exact E].
  - apply IH; intros k' v' Hin; apply (H k' v'); now right.
Qed.

Lemma documents_concat (a b : list event) :
  documents (a ++ b) = (documents a ++ documents b)%list.
Proof.
  induction a as [|ev a IH]; simpl; [reflexivity|].
  destruct ev; simpl; rewrite ?IH; reflexivity.
Qed.

Section Fetch_outcomes.

Variable requests_get : string -> credentials -> http_result.

(** The fetch writes no document, whatever it returns or raises. *)
Lemma fetch_writes_nothing (ip username password : string) :
  documents (snd (fetch_device_data requests_get ip username password)) = [].
Proof.
  unfold fetch_device_data; cbv zeta.
  destruct (requests_get _ _) as [|s1 t1 j1]; [reflexivity|].
  destruct (negb (s1 =? 200)); [reflexivity|].
  destruct (requests_get _ _) as [|s2 t2 j2]; [reflexivity|].
  destruct (negb (s2 =? 200)); [reflexivity|].
  destruct j2 as [|v]; [reflexivity|].
  destruct (get v _ _); reflexivity.
Qed.


(** X6: when both endpoints answer 200 and the registration body is no
    JSON, or a JSON object without the key [registerCode], the code
    returned is the body without its leading and trailing whitespace: the
    body is whitespace, the code, whitespace, and the code neither starts
    nor ends with a whitespace character. *)
Theorem fetch_strips_plain_body (ip username password qr_svg reg_text : string)
    (qr_json reg_json : decoded) :
  requests_get ("http://" ++ ip ++ "/api/system/qr") (HTTPBasicAuth username password)
    = Response 200 qr_svg qr_json ->
  requests_get ("http://" ++ ip ++ "/api/system/registerCode")
    (HTTPBasicAuth username password) = Response 200 reg_text reg_json ->
  (reg_json = JSONDecodeError
   \/ exists members,
        reg_json = Decoded (JObject members)
        /\ forall key value, In (key, value) members -> key <> "registerCode") ->
  exists reg_code l r,
    fst (fetch_device_data requests_get ip username password)
      = inr (Some qr_svg, Some (JString reg_code))
    /\ reg_text = l ++ reg_code ++ r
    /\ only_spaces l = true /\ only_spaces r = true
    /\ match reg_code with
       | String c _ => Py.isspace c = false
       | EmptyString => True
       end
    /\ forall p c, reg_code = p ++ String c EmptyString -> Py.isspace c = false.
Proof.
  intros E1 E2 Hj.
  destruct (lstrip_split reg_text) as (l & El & Hl & Hhead).
  destruct (rstrip_split (Py.lstrip reg_text)) as (r & Er & Hr).
  exists (Py.strip reg_text), l, r; repeat split; try assumption.
  - unfold fetch_device_data; cbv zeta; rewrite E1.
    change (negb (200 =? 200)) with false; cbv iota; rewrite E2.
    change (negb (200 =? 200)) with false; cbv iota.
    destruct Hj as [-> | (members & -> & Hm)]; [reflexivity|].
    simpl get; cbv iota.
    rewrite (dict_get_absent members "registerCode" _ Hm); reflexivity.
  - unfold Py.strip; rewrite <- Er; exact El.
  - unfold Py.strip; apply rstrip_head; exact Hhead.
  - intros p c; unfold Py.strip; apply rstrip_last.
Qed.

End Fetch_outcomes.

Lemma fetch_strips_plain_body_witness :
  exists reg_code l r,
    fst (fetch_device_data text_device "192.168.1.100" "admin" "123456")
      = inr (Some "  R57NX98AAFC62AF2A ", Some (JString reg_code))
    /\ "  R57NX98AAFC62AF2A " = l ++ reg_code ++ r
    /\ only_spaces l = true /\ only_spaces r = true
    /\ match reg_code with
       | String c _ => Py.isspace c = false
       | EmptyString => True
       end
    /\ forall p c, reg_code = p ++ String c EmptyString -> Py.isspace c = false.
Proof.
  apply (fetch_strips_plain_body text_device "192.168.1.100" "admin" "123456"
           "  R57NX98AAFC62AF2A " "  R57NX98AAFC62AF2A " JSONDecodeError JSONDecodeError).
  - reflexivity.
  - reflexivity.
  - left; reflexivity.
Defined.

(** ** [generate_label] and its callers *)

Lemma read_saved_document (path : string) (evs : list event) (c : canvas) :
  documents evs = [c] -> filename c = path -> read_file path evs = Some c.
Proof.
  intros Hd Hf; unfold read_file; rewrite Hd; simpl.
  rewrite Hf, String.eqb_refl; reflexivity.
Qed.

Lemma address_is_no_registration_code (s : string) :
  is_registration_code s = true -> is_ip_address s = false.
Proof.
  intros Hreg; destruct (is_ip_address s) eqn:Hip; [|reflexivity].
  apply ip_address_has_dot in Hip.
  apply registration_code_no_dot in Hreg; congruence.
Qed.

Section Generate_label_results.

Variable stringWidth : string -> string -> Z -> float.
Variable qr_accepts : string -> bool.
Variable fs : string -> file_state.
Variable requests_get : string -> credentials -> http_result.
Variable label_of_value : json -> float -> float -> exn + list op.

(** The canvas of a saved label: opened for the output path with the page
    size asked for, and ended by the save. *)
Lemma create_pdf_label_canvas_of (reg_code : string) (qr : option qr_png)
    (output_path : string) (w h : float) (c : canvas) :
  create_pdf_label stringWidth qr_accepts fs reg_code qr output_path w h = inr c ->
  filename c = output_path
  /\ pagesize c = ((w * inch)%float, (h * inch)%float)
  /\ exists pre, ops c = (pre ++ [save])%list.
Proof.
  rewrite create_pdf_label_operations; cbv zeta.
  destruct (generate_qr_code qr_accepts reg_code 0.8%float) as [e|buf]; [discriminate|].
  destruct (code_text_ops stringWidth reg_code w h) as [e|os]; [discriminate|].
  intros H; injection H as <-; cbn [filename pagesize ops].
  split; [reflexivity|]; split; [reflexivity|].
  assert (Hcons : forall (o : op) (l : list op),
            (exists pre, l = (pre ++ [save])%list) ->
            exists pre, o :: l = (pre ++ [save])%list)
    by (intros o l [p ->]; exists (o :: p); reflexivity).
  destruct (fs "logo.jpg"); cbn [app]; repeat apply Hcons; exists os; reflexivity.
Qed.

(** The guarded rendering returns the path with one document, or [None]
    with none. *)
Lemma generate_pdf_outcome (reg_code : json) (output_path : string) (w h : float) :
  generate_pdf stringWidth qr_accepts fs label_of_value reg_code output_path w h
  = (None, [Render reg_code output_path w h])
  \/ exists c,
       generate_pdf stringWidth qr_accepts fs label_of_value reg_code output_path w h
       = (Some output_path, [Render reg_code output_path w h; Saved c])
       /\ filename c = output_path
       /\ pagesize c = ((w * inch)%float, (h * inch)%float)
       /\ (forall s, reg_code = JString s -> exists pre, ops c = (pre ++ [save])%list).
Proof.
  unfold generate_pdf.
  destruct reg_code as [|b|n|x|s|items|members];
    try (destruct (label_of_value _ w h) as [e|os]; [left; reflexivity|];
         right; eexists; split; [reflexivity|]; cbn [filename pagesize];
         split; [reflexivity|]; split; [reflexivity|]; intros s' Hs; discriminate Hs).
  destruct (create_pdf_label stringWidth qr_accepts fs s None output_path w h)
    as [e|c] eqn:Hc; [left; reflexivity|].
  apply create_pdf_label_canvas_of in Hc as (Hf & Hp & Hsave).
  right; exists c; split; [reflexivity|]; repeat split; try assumption.
  intros s' _; exact Hsave.
Qed.

(** An exception leaves [fetch_device_data] only as [AttributeError]. *)
Lemma fetch_raises_attribute_error (ip username password : string) (e : exn) :
  fst (fetch_device_data requests_get ip username password) = inl e -> e = AttributeError.
Proof.
  unfold fetch_device_data; cbv zeta.
  destruct (requests_get _ _) as [|s1 t1 j1]; [discriminate|].
  destruct (negb (s1 =? 200)); [discriminate|].
  destruct (requests_get _ _) as [|s2 t2 j2]; [discriminate|].
  destruct (negb (s2 =? 200)); [discriminate|].
  destruct j2 as [|v]; [discriminate|].
  destruct v; simpl; try discriminate; intros H; injection H as <-; reflexivity.
Qed.

(** [generate_label] raises exactly what the fetch of an address raises. *)
Lemma generate_label_raises (device_input output_path : string) (w h : float)
    (username password : string) (e : exn) :
  fst (generate_label stringWidth qr_accepts fs requests_get label_of_value
         device_input output_path w h username password) = inl e <->
  is_ip_address device_input = true
  /\ fst (fetch_device_data requests_get device_input username password) = inl e.
Proof.
  unfold generate_label.
  destruct (is_ip_address device_input).
  - destruct (fetch_device_data requests_get device_input username password)
      as [[e'|[qr_svg reg_code]] fetched]; simpl fst.
    + split.
      * intros H; injection H as ->; split; reflexivity.
      * intros [_ H]; injection H as ->; reflexivity.
    + destruct (negb (Py.truthy qr_svg) || negb (truthy_opt reg_code));
        [split; [discriminate | intros [_ H]; discriminate H]|].
      destruct reg_code as [reg_code|];
        [|split; [discriminate | intros [_ H]; discriminate H]].
      destruct (generate_pdf _ _ _ _ _ _ _ _); simpl fst.
      split; [discriminate | intros [_ H]; discriminate H].
  - split; [|intros [H _]; discriminate H].
    destruct (is_registration_code device_input); [|discriminate].
    destruct (generate_pdf _ _ _ _ _ _ _ _); discriminate.
Qed.

(** What [generate_label] returns against what it wrote. *)
Lemma generate_label_results (device_input output_path : string) (w h : float)
    (username password : string) :
  let run := generate_label stringWidth qr_accepts fs requests_get label_of_value
               device_input output_path w h username password in
  match fst run with
  | inl e => e = AttributeError /\ is_ip_address device_input = true
             /\ documents (snd run) = []
  | inr None => documents (snd run) = []
  | inr (Some path) =>
      path = output_path
      /\ exists c, documents (snd run) = [c]
                   /\ filename c = output_path
                   /\ pagesize c = ((w * inch)%float, (h * inch)%float)
                   /\ (forall s, In (Render (JString s) output_path w h) (snd run) ->
                       exists pre, ops c = (pre ++ [save])%list)
  end.
Proof.
  cbv zeta; unfold generate_label.
  destruct (is_ip_address device_input).
  - pose proof (fetch_writes_nothing requests_get device_input username password) as Hd.
    pose proof (fetch_raises_attribute_error device_input username password) as He.
    assert (Hr : forall s, ~ In (Render (JString s) output_path w h)
                             (snd (fetch_device_data requests_get device_input
                                     username password))).
    { unfold fetch_device_data; cbv zeta.
      destruct (requests_get _ _) as [|s1 t1 j1];
        [intros s [H|[]]; discriminate H|].
      destruct (negb (s1 =? 200)); [intros s [H|[]]; discriminate H|].
      destruct (requests_get _ _) as [|s2 t2 j2];
        [intros s [H|[H|[]]]; discriminate H|].
      destruct (negb (s2 =? 200)); [intros s [H|[H|[]]]; discriminate H|].
      destruct j2 as [|v]; [intros s [H|[H|[]]]; discriminate H|].
      destruct (get v _ _); intros s [H|[H|[]]]; discriminate H. }
    destruct (fetch_device_data requests_get device_input username password)
      as [[e|[qr_svg reg_code]] fetched]; simpl in Hd, He, Hr; simpl fst; simpl snd.
    + repeat split; [apply He; reflexivity | exact Hd].
    + destruct (negb (Py.truthy qr_svg) || negb (truthy_opt reg_code)); [exact Hd|].
      destruct reg_code as [reg_code|]; [|exact Hd].
      destruct (generate_pdf_outcome reg_code output_path w h)
        as [-> | (c & -> & Hf & Hp & Hs)]; simpl fst; simpl snd.
      * rewrite documents_concat, Hd; reflexivity.
      * split; [reflexivity|]; exists c; rewrite documents_concat, Hd.
        split; [reflexivity|]; split; [exact Hf|]; split; [exact Hp|].
        intros s Hin; apply in_app_or in Hin as [Hin|Hin]; [now apply Hr in Hin|].
        destruct Hin as [Hin|[Hin|[]]]; [|discriminate Hin].
        injection Hin as ->; apply (Hs s); reflexivity.
  - destruct (is_registration_code device_input); [|reflexivity].
    destruct (generate_pdf_outcome (JString device_input) output_path w h)
      as [-> | (c & -> & Hf & Hp & Hs)]; simpl fst; simpl snd; [reflexivity|].
    split; [reflexivity|]; exists c; repeat split; try assumption.
    intros s _; apply (Hs device_input); reflexivity.
Qed.

(** X7: [generate_label] returns the output path exactly when it wrote a
    document and [None] only when it wrote none; a written document is
    single, was opened for the output path with page size
    (72*width, 72*height) points, and, for a code that is a string, ends
    with the save.  The one exception that leaves it is the
    [AttributeError] of the fetch, for an address, and then no document
    is written either. *)
Theorem generate_label_result_matches_documents (device_input output_path : string)
    (w h : float) (username password : string) :
  let run := generate_label stringWidth qr_accepts fs requests_get label_of_value
               device_input output_path w h username password in
  match fst run with
  | inl e => e = AttributeError /\ is_ip_address device_input = true
             /\ documents (snd run) = []
  | inr None => documents (snd run) = []
  | inr (Some path) =>
      path = output_path
      /\ exists c, documents (snd run) = [c]
                   /\ filename c = output_path
                   /\ pagesize c = ((w * inch)%float, (h * inch)%float)
                   /\ (forall s, In (Render (JString s) output_path w h) (snd run) ->
                       exists pre, ops c = (pre ++ [save])%list)
  end.
Proof. exact (generate_label_results device_input output_path w h username password). Qed.

End Generate_label_results.

Section Form_facts.

Variable stringWidth : string -> string -> Z -> float.
Variable qr_accepts : string -> bool.
Variable fs : string -> file_state.
Variable requests_get : string -> credentials -> http_result.
Variable label_of_value : json -> float -> float -> exn + list op.

(** A single message other than the success and the exception message
    shows no button, no success and no exception. *)
Lemma plain_error_shown (m : message) :
  m = error_missing_input \/ m = error_invalid_address
  \/ m = error_invalid_code \/ m = error_failed ->
  (forall data name mime, ~ In (download_button data name mime) [m])
  /\ ~ In success_generated [m]
  /\ ~ In error_exception [m].
Proof.
  intros Hm; repeat split; try intros data name mime; intros [H|[]];
    destruct Hm as [->|[->|[->| ->]]]; discriminate H.
Qed.

(** X19: what the form shows matches what was written.  A download
    button appears exactly when a document was written; it then comes
    after the success message and offers that one document, saved at
    [os.path.join(tmpdir, name + ".pdf")] for the name typed, with the
    page size asked for.  The exception message appears exactly when the
    input is an address accepted in address mode and the fetch raises
    [AttributeError]; it then is all the form shows, and nothing was
    written. *)
Theorem form_shows_what_was_written (tmpdir : string) (method : input_method)
    (device_input typed_username typed_password : string) (width height : float)
    (typed_name : string) :
  let shown :=
    fst (on_submit stringWidth qr_accepts fs requests_get label_of_value tmpdir method
           device_input typed_username typed_password width height typed_name) in
  let trace :=
    snd (on_submit stringWidth qr_accepts fs requests_get label_of_value tmpdir method
           device_input typed_username typed_password width height typed_name) in
  ((documents trace = []
    /\ (forall data name mime, ~ In (download_button data name mime) shown)
    /\ ~ In success_generated shown)
   \/ exists data,
        documents trace = [data]
        /\ shown = [success_generated;
                    download_button data (typed_name ++ ".pdf") "application/pdf";
                    info_dimensions width height]
        /\ filename data = os_path_join tmpdir (typed_name ++ ".pdf")
        /\ pagesize data = ((width * inch)%float, (height * inch)%float))
  /\ (In error_exception shown <->
      device_input <> EmptyString
      /\ method = Device_IP_Address
      /\ is_ip_address device_input = true
      /\ fst (fetch_device_data requests_get device_input typed_username typed_password)
         = inl AttributeError)
  /\ (In error_exception shown -> shown = [error_exception]).
Proof.
  cbv zeta; unfold on_submit.
  destruct (String.eqb_spec device_input EmptyString) as [Hempty|Hinput].
  { destruct (plain_error_shown error_missing_input ltac:(auto)) as (H1 & H2 & H3).
    destruct method; simpl;
      (split; [left; repeat split; assumption|]; split;
       [split; [intros H; now apply H3 in H | intros [H _]; now apply H in Hempty]
       | intros H; now apply H3 in H]). }
  destruct method; cbn [form_credentials method_eqb andb].
  - destruct (is_ip_address device_input) eqn:Hip; cbn [negb].
    2:{ destruct (plain_error_shown error_invalid_address ltac:(auto)) as (H1 & H2 & H3).
        simpl; split; [left; repeat split; assumption|]; split;
          [split; [intros H; now apply H3 in H | intros (_ & _ & H & _); discriminate H]
          | intros H; now apply H3 in H]. }
    cbv zeta.
    set (pdf_path := os_path_join tmpdir (typed_name ++ ".pdf")).
    pose proof (generate_label_results stringWidth qr_accepts fs requests_get
                  label_of_value device_input pdf_path width height
                  typed_username typed_password) as H; cbv zeta in H.
    pose proof (generate_label_raises stringWidth qr_accepts fs requests_get
                  label_of_value device_input pdf_path width height
                  typed_username typed_password) as Hraise.
    destruct (generate_label stringWidth qr_accepts fs requests_get label_of_value
                device_input pdf_path width height typed_username typed_password)
      as [[e|[path|]] trace];
      simpl fst in H, Hraise; simpl snd in H; simpl fst; simpl snd.
    + destruct H as (-> & _ & Hd); split; [|split].
      * left; repeat split; [exact Hd | |];
          try intros data name mime; intros [Hin|[]]; discriminate Hin.
      * split; [|intros _; left; reflexivity].
        intros _; repeat split; try assumption.
        apply (Hraise AttributeError); reflexivity.
      * reflexivity.
    + destruct H as (-> & c & Hd & Hf & Hp & _).
      assert (Hne : pdf_path <> EmptyString)
        by (apply os_path_join_nonempty, append_nonempty_r; discriminate).
      apply String.eqb_neq in Hne; simpl Py.truthy; rewrite Hne; simpl negb; cbv iota.
      rewrite (read_saved_document pdf_path trace c Hd Hf); simpl fst; simpl snd.
      split; [right; exists c; repeat split; assumption|]; split.
      * split; [intros [Hin|[Hin|[Hin|[]]]]; discriminate Hin|].
        intros (_ & _ & _ & Hf'); exfalso.
        assert (Hx : @inr exn (option string) (Some pdf_path) = inl AttributeError)
          by (apply Hraise; split; [exact Hip | exact Hf']).
        discriminate Hx.
      * intros [Hin|[Hin|[Hin|[]]]]; discriminate Hin.
    + simpl Py.truthy; cbv iota; simpl fst; simpl snd.
      destruct (plain_error_shown error_failed ltac:(auto 6)) as (H1 & H2 & H3).
      split; [left; repeat split; assumption|]; split.
      * split; [intros Hin; now apply H3 in Hin|].
        intros (_ & _ & _ & Hf'); exfalso.
        assert (Hx : @inr exn (option string) None = inl AttributeError)
          by (apply Hraise; split; [exact Hip | exact Hf']).
        discriminate Hx.
      * intros Hin; now apply H3 in Hin.
  - destruct (is_registration_code device_input) eqn:Hreg; cbn [negb].
    2:{ destruct (plain_error_shown error_invalid_code ltac:(auto)) as (H1 & H2 & H3).
        simpl; split; [left; repeat split; assumption|]; split;
          [split; [intros H; now apply H3 in H | intros (_ & H & _); discriminate H]
          | intros H; now apply H3 in H]. }
    cbv zeta.
    set (pdf_path := os_path_join tmpdir (typed_name ++ ".pdf")).
    pose proof (generate_label_results stringWidth qr_accepts fs requests_get
                  label_of_value device_input pdf_path width height
                  "admin" "123456") as H; cbv zeta in H.
    destruct (generate_label stringWidth qr_accepts fs requests_get label_of_value
                device_input pdf_path width height "admin" "123456")
      as [[e|[path|]] trace];
      simpl fst in H; simpl snd in H; simpl fst; simpl snd.
    + destruct H as (_ & Hip & _).
      rewrite (address_is_no_registration_code device_input Hreg) in Hip; discriminate Hip.
    + destruct H as (-> & c & Hd & Hf & Hp & _).
      assert (Hne : pdf_path <> EmptyString)
        by (apply os_path_join_nonempty, append_nonempty_r; discriminate).
      apply String.eqb_neq in Hne; simpl Py.truthy; rewrite Hne; simpl negb; cbv iota.
      rewrite (read_saved_document pdf_path trace c Hd Hf); simpl fst; simpl snd.
      split; [right; exists c; repeat split; assumption|]; split.
      * split; [intros [Hin|[Hin|[Hin|[]]]]; discriminate Hin|].
        intros (_ & Hm & _); discriminate Hm.
      * intros [Hin|[Hin|[Hin|[]]]]; discriminate Hin.
    + simpl Py.truthy; cbv iota; simpl fst; simpl snd.
      destruct (plain_error_shown error_failed ltac:(auto 6)) as (H1 & H2 & H3).
      split; [left; repeat split; assumption|]; split.
      * split; [intros Hin; now apply H3 in Hin|].
        intros (_ & Hm & _); discriminate Hm.
      * intros Hin; now apply H3 in Hin.
Qed.

End Form_facts.

(** A device whose registration body is the JSON number 123: the fetch
    raises, [generate_label] lets the exception through, the command
    line ends with status 1 and the form shows the exception message. *)
Example number_body_raises :
  fst (fetch_device_data number_device "192.168.1.100" "admin" "123456")
    = inl AttributeError
  /\ fst (generate_label helvetica_measure symbol_capacity no_logo number_device
            reject_value "192.168.1.100" "device_label.pdf" 2.625 1 "admin" "123456")
     = inl AttributeError
  /\ fst (main helvetica_measure symbol_capacity no_logo number_device reject_value
            {| arg_input := "192.168.1.100"; arg_username := "admin";
               arg_password := "123456"; arg_output := "device_label.pdf";
               arg_width := 2.625; arg_height := 1 |}) = 1
  /\ fst (on_submit helvetica_measure symbol_capacity no_logo number_device reject_value
            "/tmp/tmpdir" Device_IP_Address "192.168.1.100" "admin" "123456" 2.625 1
            "device_label") = [error_exception].
Proof. repeat split; vm_compute; reflexivity. Qed.

(** Rounding decides the layout: on a label of 1.625 in by 1 in the code
    [A1III||G@@] measures 37.800000000000004 at size 7 against
    37.79999999999999 available, and is drawn at size 6. *)
Example rounding_selects_size_6 :
  code_text_ops helvetica_measure "A1III||G@@" 1.625 1 =
  inr [setFont "Helvetica-Bold" 7; setFont "Helvetica-Bold" 6;
       drawString (text_start_x_of 1) (code_y_of 1) "A1III||G@@"].
Proof. vm_compute; reflexivity. Qed.

(** The empty code on a label of 1 in by 1 in: the width at size 6 is
    zero and the division raises. *)
Example empty_code_division :
  create_pdf_label helvetica_measure symbol_capacity no_logo EmptyString None
    "device_label.pdf" 1 1 = inl ZeroDivisionError.
Proof. vm_compute; reflexivity. Qed.
